(** * imhotep/reporters/github.py: the GitHub reporters

    A shallow embedding of [GitHubReporter], [CommitReporter], [PRReporter]
    and [PRReviewReporter], with the properties of the comment cache, the
    deduplicator, the payload builder and the three reporting strategies.

    Conventions of the embedding.
    - A reporter object is a record of its attributes; a method is a
      computation in the state monad [M Self], which threads the object and
      the chronological trace of what the method did to the outside world:
      transport calls ([requester.get], [requester.post]) and logger calls.
    - The transport is the [requester] attribute.  What it answers may depend
      on everything that happened before, so its [get] and [post] take the
      trace so far.
    - The source's annotations are taken as given: the body of a fetched
      response is a list of comment dicts with the keys "path", "position",
      "body" and "user" -> "login"; positions are Python ints ([Z]).
    - The message argument is a list of strings or a single string, as the
      callers and the tests pass both ([Message]).
    - Payloads are Python dicts with string keys: [gmap string Value].
    - A response carries its parsed body: [json()] is taken to return.  Only
      [get_comments_http] looks one level down, at a transport whose bodies
      may fail to parse, where [json()] raises. *)

From Stdlib Require Import ZArith String Ascii List DecimalString.
From stdpp Require Import base option list gmap strings.

Local Open Scope string_scope.
Local Open Scope list_scope.
Local Open Scope Z_scope.

(** ** Data *)

Record User := { login : string }.

(** A comment as fetched from the service:
    [{"path": .., "position": .., "body": .., "user": {"login": ..}}]. *)
Module Comment.
Record t := mk { path : string; position : Z; body : string; user : User }.
End Comment.

(** The [message] argument: [List[str]] by annotation, a plain [str] in
    several callers. *)
Inductive Message :=
  | MStr (s : string)
  | MList (l : list string).

(** Values of a line payload: strings and ints. *)
Inductive Value :=
  | VStr (s : string)
  | VInt (z : Z).

(** The review payload of [submit_review], a dict literal with the three
    keys "body", "event" and "comments". *)
Record Review := {
  review_body : string;
  review_event : string;
  review_comments : list (gmap string Value)
}.

(** What is handed to [requester.post] as the JSON body. *)
Inductive PostBody :=
  | LineBody (payload : gmap string Value)
  | ReviewBody (payload : Review)
  | IssueBody (message : string).

Record Response := { status_code : Z; json : list Comment.t }.

Inductive Level := Debug | Error.

Inductive LogArg :=
  | LUrl (url : string)
  | LJson (j : list Comment.t)
  | LPayload (p : PostBody)
  | LNothing.

(** One observable action of a method. *)
Inductive Event :=
  | Get (url : string) (result : Response)
  | Post (url : string) (payload : PostBody) (result : Response)
  | Log (lvl : Level) (fmt : string) (arg : LogArg).

(** [BasicAuthRequester], as far as the reporters use it. *)
Record Requester := {
  username : string;
  get : list Event → string → Response;
  post : list Event → string → PostBody → Response
}.

Record GitHubReporter := {
  _comments : list Comment.t;
  domain : string;
  repo_name : string;
  requester : Requester
}.

Definition set_comments (cs : list Comment.t) (self : GitHubReporter) : GitHubReporter :=
  {| _comments := cs; domain := domain self; repo_name := repo_name self;
     requester := requester self |}.

(** [GitHubReporter.__init__] *)
Definition GitHubReporter_init (rq : Requester) (d r : string) : GitHubReporter :=
  {| _comments := []; domain := d; repo_name := r; requester := rq |}.

(** ** The monad of methods *)

Definition M (S A : Type) : Type := S → list Event → A * S * list Event.

Global Instance M_ret {S} : MRet (M S) := λ A a self tr, (a, self, tr).

Global Instance M_bind {S} : MBind (M S) := λ A B f m self tr,
  match m self tr with
  | (a, self', tr') => f a self' tr'
  end.

Definition ask {S} : M S S := λ self tr, (self, self, tr).

Definition modify {S} (f : S → S) : M S unit := λ self tr, (tt, f self, tr).

Definition emit {S} (e : Event) : M S unit := λ self tr, (tt, self, tr ++ [e]).

Definition log_debug {S} (fmt : string) (arg : LogArg) : M S unit :=
  emit (Log Debug fmt arg).

Definition log_error {S} (fmt : string) (arg : LogArg) : M S unit :=
  emit (Log Error fmt arg).

(** [rq.get(url)]: the transport answers from the trace so far, and the call
    is recorded with its answer. *)
Definition http_get {S} (rq : Requester) (url : string) : M S Response :=
  λ self tr, let result := get rq tr url in (result, self, tr ++ [Get url result]).

Definition http_post {S} (rq : Requester) (url : string) (payload : PostBody)
    : M S Response :=
  λ self tr, let result := post rq tr url payload in
             (result, self, tr ++ [Post url payload result]).

(** A method of a base class run on a subclass instance. *)
Definition zoom {S T A} (proj : S → T) (upd : T → S → S) (m : M T A) : M S A :=
  λ self tr,
  match m (proj self) tr with
  | (a, base', tr') => (a, upd base' self, tr')
  end.

(** ** Python strings *)

(** [for ch in s]: the one-character strings of [s]. *)
Fixpoint chars (s : string) : list string :=
  match s with
  | EmptyString => []
  | String a s' => String a EmptyString :: chars s'
  end.

(** [m in s] on strings: [m] occurs in [s] as a contiguous substring. *)
Fixpoint str_in (m s : string) : bool :=
  String.prefix m s ||
  match s with
  | EmptyString => false
  | String _ s' => str_in m s'
  end.

(** [for m in message] *)
Definition iter (message : Message) : list string :=
  match message with
  | MStr s => chars s
  | MList l => l
  end.

(** [if isinstance(message, str): message = [message]] *)
Definition as_list (message : Message) : list string :=
  match message with
  | MStr s => [s]
  | MList l => l
  end.

(** [not message] *)
Definition falsy (message : Message) : bool :=
  match message with
  | MStr s => if decide (s = "") then true else false
  | MList l => match l with [] => true | _ => false end
  end.

(** ["{}".format(n)] for a length. *)
Definition str_of_nat (n : nat) : string := NilEmpty.string_of_uint (Nat.to_uint n).

Definition newline : string := String (ascii_of_nat 10) EmptyString.

(** ** GitHubReporter *)

(** The test of the [if] in [clean_already_reported]. *)
Definition same_place (self : GitHubReporter) (file_name : string) (position : Z)
    (comment : Comment.t) : bool :=
  bool_decide (Comment.path comment = file_name)
  && bool_decide (Comment.position comment = position)
  && bool_decide (login (Comment.user comment) = username (requester self)).

Fixpoint clean_already_reported (self : GitHubReporter) (comments : list Comment.t)
    (file_name : string) (position : Z) (message : Message) : Message :=
  match comments with
  | [] => message
  | comment :: rest =>
      if same_place self file_name position comment
      then MList (List.filter (λ m, negb (str_in m (Comment.body comment))) (iter message))
      else clean_already_reported self rest file_name position message
  end.

Definition get_comments (report_url : string) : M GitHubReporter (list Comment.t) :=
  self ← ask;
  match _comments self with
  | [] =>
      log_debug "PR Request: %s" (LUrl report_url);;
      result ← http_get (requester self) report_url;
      if bool_decide (400 ≤ status_code result)
      then
        log_error "Error requesting comments from github. %s" (LJson (json result));;
        mret (_comments self)
      else
        modify (set_comments (json result));;
        self ← ask;
        mret (_comments self)
  | _ :: _ => mret (_comments self)
  end.

Definition convert_message_to_string (message : Message) : string :=
  fold_left (λ final_message submessage,
               final_message +:+ "* " +:+ submessage +:+ newline)
            (iter message) "".

Definition get_payload (comments_url : string) (commit commit_key : option string)
    (file_name : string) (position : Z) (message : Message)
    : M GitHubReporter (option (gmap string Value)) :=
  existing_comments ← get_comments comments_url;
  self ← ask;
  let message := MList (as_list message) in
  let message := clean_already_reported self existing_comments file_name position message in
  if falsy message
  then
    log_debug "Message already reported" LNothing;;
    mret None
  else
    let payload : gmap string Value :=
      {[ "body" := VStr (convert_message_to_string message);
         "path" := VStr file_name;
         "position" := VInt position ]} in
    match commit_key, commit with
    | Some commit_key, Some commit => mret (Some (<[commit_key := VStr commit]> payload))
    | _, _ => mret (Some payload)
    end.

(** The [if result.status_code >= 400: log.error(fmt, result.json())] that
    follows every post. *)
Definition log_if_error {S} (fmt : string) (result : Response) : M S unit :=
  if bool_decide (400 ≤ status_code result)
  then log_error fmt (LJson (json result))
  else mret tt.

(** The capability shared by the strategies ([Reporter.report_line]). *)
Class Reporter (S : Type) :=
  report_line : string → string → Z → Message → M S (option Response).

(** ** CommitReporter *)

Module CommitReporter.

Definition report_url (self : GitHubReporter) (commit : string) : string :=
  "https://api." +:+ domain self +:+ "/repos/" +:+ repo_name self
    +:+ "/commits/" +:+ commit +:+ "/comments".

(** Lines 104-111: what [report_line] does with the payload it built. *)
Definition deliver (report_url : string) (payload : option (gmap string Value))
    : M GitHubReporter (option Response) :=
  match payload with
  | None => mret None
  | Some payload =>
      self ← ask;
      log_debug "Commit Request: %s" (LUrl report_url);;
      log_debug "Commit Payload: %s" (LPayload (LineBody payload));;
      result ← http_post (requester self) report_url (LineBody payload);
      log_if_error "Error posting line to github. %s" result;;
      mret (Some result)
  end.

Definition report_line (commit file_name : string) (position : Z) (message : Message)
    : M GitHubReporter (option Response) :=
  self ← ask;
  let report_url := report_url self commit in
  comments ← get_comments report_url;
  let message := clean_already_reported self comments file_name position message in
  payload ← get_payload report_url (Some commit) (Some "commit_sha")
              file_name position message;
  deliver report_url payload.

End CommitReporter.

Global Instance CommitReporter_Reporter : Reporter GitHubReporter :=
  CommitReporter.report_line.

(** ** PRReporter *)

Module PRReporter.

Record t := mk {
  base : GitHubReporter;
  pr_number : string;
  pr_comments_url : string
}.

Definition set_base (g : GitHubReporter) (self : t) : t :=
  {| base := g; pr_number := pr_number self; pr_comments_url := pr_comments_url self |}.

Definition init (rq : Requester) (d r pr : string) : t :=
  {| base := GitHubReporter_init rq d r;
     pr_number := pr;
     pr_comments_url :=
       "https://api." +:+ d +:+ "/repos/" +:+ r +:+ "/pulls/" +:+ pr +:+ "/comments" |}.

Definition report_line (commit file_name : string) (position : Z) (message : Message)
    : M t (option Response) :=
  self ← ask;
  payload ← zoom base set_base
              (get_payload (pr_comments_url self) (Some commit) (Some "commit_id")
                 file_name position message);
  match payload with
  | None => mret None
  | Some payload =>
      log_debug "PR Request: %s" (LUrl (pr_comments_url self));;
      log_debug "PR Payload: %s" (LPayload (LineBody payload));;
      result ← http_post (requester (base self)) (pr_comments_url self) (LineBody payload);
      log_if_error "Error posting line to github. %s" result;;
      mret (Some result)
  end.

Definition post_comment (message : string) : M t Response :=
  self ← ask;
  let report_url :=
    "https://api." +:+ domain (base self) +:+ "/repos/" +:+ repo_name (base self)
      +:+ "/issues/" +:+ pr_number self +:+ "/comments" in
  result ← http_post (requester (base self)) report_url (IssueBody message);
  log_if_error "Error posting comment to github. %s" result;;
  mret result.

End PRReporter.

Global Instance PRReporter_Reporter : Reporter PRReporter.t := PRReporter.report_line.

(** ** PRReviewReporter *)

Module PRReviewReporter.

Record t := mk {
  base : PRReporter.t;
  comments : list (gmap string Value);
  pr_reviews_url : option string   (* set by [submit_review] *)
}.

Definition set_base (b : PRReporter.t) (self : t) : t :=
  {| base := b; comments := comments self; pr_reviews_url := pr_reviews_url self |}.

Definition set_comments (cs : list (gmap string Value)) (self : t) : t :=
  {| base := base self; comments := cs; pr_reviews_url := pr_reviews_url self |}.

Definition set_pr_reviews_url (u : string) (self : t) : t :=
  {| base := base self; comments := comments self; pr_reviews_url := Some u |}.

Definition github (self : t) : GitHubReporter := PRReporter.base (base self).

Definition set_github (g : GitHubReporter) (self : t) : t :=
  set_base (PRReporter.set_base g (base self)) self.

Definition init (rq : Requester) (d r pr : string) : t :=
  {| base := PRReporter.init rq d r pr; comments := []; pr_reviews_url := None |}.

Definition report_line (commit file_name : string) (position : Z) (message : Message)
    : M t (option Response) :=
  self ← ask;
  payload ← zoom github set_github
              (get_payload (PRReporter.pr_comments_url (base self)) None None
                 file_name position message);
  match payload with
  | None => mret None
  | Some payload =>
      modify (λ self, set_comments (comments self ++ [payload]) self);;
      mret None
  end.

Definition reviews_url (self : t) : string :=
  "https://api." +:+ domain (github self) +:+ "/repos/" +:+ repo_name (github self)
    +:+ "/pulls/" +:+ PRReporter.pr_number (base self) +:+ "/reviews".

Definition submit_review : M t (option Response) :=
  self ← ask;
  let url := reviews_url self in
  modify (set_pr_reviews_url url);;
  match comments self with
  | [] => mret None
  | _ :: _ =>
      let payload :=
        {| review_body :=
             "Imhotep detected " +:+ str_of_nat (length (comments self))
               +:+ " potential problems with this PR.";
           review_event := "COMMENT";
           review_comments := comments self |} in
      log_debug "PR Request: %s" (LUrl url);;
      log_debug "PR Payload: %s" (LPayload (ReviewBody payload));;
      result ← http_post (requester (github self)) url (ReviewBody payload);
      log_if_error "Error posting review to github. %s" result;;
      mret (Some result)
  end.

End PRReviewReporter.

Global Instance PRReviewReporter_Reporter : Reporter PRReviewReporter.t :=
  PRReviewReporter.report_line.

(** ** Reading a trace *)

Definition is_get (e : Event) : bool :=
  match e with Get _ _ => true | _ => false end.

Definition is_post (e : Event) : bool :=
  match e with Post _ _ _ => true | _ => false end.

Definition gets (tr : list Event) : nat := length (List.filter is_get tr).

Definition posts (tr : list Event) : nat := length (List.filter is_post tr).

(** ** Vocabulary of the statements *)

(** [m] occurs in [s] as a contiguous substring: what [m in s] decides. *)
Definition substring (m s : string) : Prop := ∃ p q, s = p +:+ m +:+ q.

(** The comment sits at [(file_name, position)] and was written by the
    acting identity. *)
Definition matches (self : GitHubReporter) (file_name : string) (position : Z)
    (comment : Comment.t) : Prop :=
  Comment.path comment = file_name
  ∧ Comment.position comment = position
  ∧ login (Comment.user comment) = username (requester self).

(** The candidates that survive deduplication against [comments]. *)
Definition surviving (self : GitHubReporter) (comments : list Comment.t)
    (file_name : string) (position : Z) (message : list string) : list string :=
  iter (clean_already_reported self comments file_name position (MList message)).

(** The commit arguments do not overwrite one of the three fields of a line
    payload: one of them is null, or the field name is a fourth key. *)
Definition no_clash (commit commit_key : option string) : Prop :=
  ∀ k c, commit_key = Some k → commit = Some c →
         k ≠ "body" ∧ k ≠ "path" ∧ k ≠ "position".

(** The bullet rendering of a list of messages. *)
Definition bullets (l : list string) : string :=
  String.concat "" (map (λ m, "* " +:+ m +:+ newline) l).

(** The three fields every line payload starts from. *)
Definition line_payload (body file_name : string) (position : Z) : gmap string Value :=
  {[ "body" := VStr body; "path" := VStr file_name; "position" := VInt position ]}.

(** The operations of the batched-review workflow, and sequences of them. *)
Inductive Call :=
  | ReportLine (commit file_name : string) (position : Z) (message : Message)
  | SubmitReview.

Definition call (c : Call) : M PRReviewReporter.t (option Response) :=
  match c with
  | ReportLine commit file_name position message =>
      PRReviewReporter.report_line commit file_name position message
  | SubmitReview => PRReviewReporter.submit_review
  end.

Fixpoint run_calls (cs : list Call) (self : PRReviewReporter.t) (tr : list Event)
    : PRReviewReporter.t * list Event :=
  match cs with
  | [] => (self, tr)
  | c :: cs' =>
      match call c self tr with
      | (_, self', tr') => run_calls cs' self' tr'
      end
  end.

(** [get_comments] called once per url of [urls], in order. *)
Fixpoint get_comments_each (urls : list string) : M GitHubReporter (list (list Comment.t)) :=
  match urls with
  | [] => mret []
  | url :: urls' =>
      cs ← get_comments url;
      rest ← get_comments_each urls';
      mret (cs :: rest)
  end.

(** ** Fixtures, after reporters_test.py *)

Definition ok (cs : list Comment.t) : Response := {| status_code := 200; json := cs |}.

(** A transport whose every GET answers [resp] and every POST succeeds. *)
Definition constant_requester (resp : Response) : Requester :=
  {| username := "magicmock";
     get := λ _ _, resp;
     post := λ _ _ _, {| status_code := 201; json := [] |} |}.

Definition get_that_out : Comment.t :=
  Comment.mk "foo.py" 2 "Get that out" {| login := "magicmock" |}.

Definition different_comment : Comment.t :=
  Comment.mk "foo.py" 2 "Different comment" {| login := "magicmock" |}.

(** A reporter with an empty cache whose remote collection is empty too. *)
Definition fresh_reporter : GitHubReporter :=
  GitHubReporter_init (constant_requester (ok [])) "github.com" "foo/bar".

(** A reporter whose remote holds the comment of [test_pr_already_reported]. *)
Definition reporter_with_comment : GitHubReporter :=
  GitHubReporter_init (constant_requester (ok [get_that_out])) "github.com" "foo/bar".

(** The same with the comment already in the cache ([pr._comments = comments]). *)
Definition cached_reporter : GitHubReporter :=
  set_comments [get_that_out] reporter_with_comment.

(** A reporter whose transport refuses every GET with status 400. *)
Definition failing_reporter : GitHubReporter :=
  GitHubReporter_init (constant_requester {| status_code := 400; json := [] |})
    "github.com" "foo/bar".

Definition pr_reporter : PRReporter.t :=
  PRReporter.init (constant_requester (ok [])) "github.com" "justinabrahms/imhotep" "10".

Definition review_reporter : PRReviewReporter.t :=
  PRReviewReporter.init (constant_requester (ok [])) "github.com" "justinabrahms/imhotep" "10".

(** ** The whole interface of a PRReviewReporter *)

(** [post_comment], which [PRReviewReporter] inherits from [PRReporter]. *)
Definition review_post_comment (message : string) : M PRReviewReporter.t Response :=
  zoom PRReviewReporter.base PRReviewReporter.set_base (PRReporter.post_comment message).

(** The three public methods of a [PRReviewReporter], and sequences of them. *)
Inductive Op :=
  | OpReportLine (commit file_name : string) (position : Z) (message : Message)
  | OpSubmitReview
  | OpPostComment (message : string).

Definition do_op (o : Op) (self : PRReviewReporter.t) (tr : list Event)
    : PRReviewReporter.t * list Event :=
  match o with
  | OpReportLine commit file_name position message =>
      match PRReviewReporter.report_line commit file_name position message self tr with
      | (_, self', tr') => (self', tr')
      end
  | OpSubmitReview =>
      match PRReviewReporter.submit_review self tr with
      | (_, self', tr') => (self', tr')
      end
  | OpPostComment message =>
      match review_post_comment message self tr with
      | (_, self', tr') => (self', tr')
      end
  end.

Fixpoint run_ops (os : list Op) (self : PRReviewReporter.t) (tr : list Event)
    : PRReviewReporter.t * list Event :=
  match os with
  | [] => (self, tr)
  | o :: os' =>
      match do_op o self tr with
      | (self', tr') => run_ops os' self' tr'
      end
  end.

Definition is_report_line (o : Op) : bool :=
  match o with OpReportLine _ _ _ _ => true | _ => false end.

(** What was posted, in order: the url and the JSON body of every POST. *)
Definition posted (tr : list Event) : list (string * PostBody) :=
  omap (λ e, match e with Post url payload _ => Some (url, payload) | _ => None end) tr.

(** The error log entry that follows a response with status 400 or more. *)
Definition error_log (fmt : string) (result : Response) : list Event :=
  if bool_decide (400 ≤ status_code result)
  then [Log Error fmt (LJson (json result))]
  else [].

(** ** The transport, one level down

    Everywhere above a response carries its parsed body.  [requests] parses
    the body only when [json()] is called, and [json()] raises
    [JSONDecodeError] when the body is not JSON.  [get_comments_http] is
    [get_comments] over such a transport: it returns normally or raises. *)

Inductive Body :=
  | JsonBody (parsed : list Comment.t)
  | NotJson (text : string).

Record HttpResponse := { http_status_code : Z; http_body : Body }.

Inductive Exception := JSONDecodeError.

(** [result.json()] *)
Definition http_json (result : HttpResponse) : Exception + list Comment.t :=
  match http_body result with
  | JsonBody parsed => inr parsed
  | NotJson _ => inl JSONDecodeError
  end.

(** A GET with the response as received, or any other event. *)
Inductive HttpEvent :=
  | HttpGet (url : string) (result : HttpResponse)
  | Other (e : Event).

(** [self.requester.get], answering from the trace so far. *)
Definition HttpTransport : Type := list HttpEvent → string → HttpResponse.

(** [get_comments], lines 43-51.  On line 48 [result.json()] is an argument
    of [log.error], so it is evaluated, and may raise, before anything is
    logged; on line 50 it is evaluated before the assignment. *)
Definition get_comments_http (transport : HttpTransport) (report_url : string)
    (self : GitHubReporter) (tr : list HttpEvent)
    : (Exception + list Comment.t) * GitHubReporter * list HttpEvent :=
  match _comments self with
  | [] =>
      let tr1 := tr ++ [Other (Log Debug "PR Request: %s" (LUrl report_url))] in
      let result := transport tr1 report_url in
      let tr2 := tr1 ++ [HttpGet report_url result] in
      if bool_decide (400 ≤ http_status_code result)
      then
        match http_json result with
        | inl exc => (inl exc, self, tr2)
        | inr body =>
            (inr (_comments self), self,
             tr2 ++ [Other (Log Error "Error requesting comments from github. %s"
                              (LJson body))])
        end
      else
        match http_json result with
        | inl exc => (inl exc, self, tr2)
        | inr body => (inr body, set_comments body self, tr2)
        end
  | _ :: _ => (inr (_comments self), self, tr)
  end.

(** A parsed response as the transport sent it, and back. *)
Definition to_http (result : Response) : HttpResponse :=
  {| http_status_code := status_code result; http_body := JsonBody (json result) |}.

Definition fine (e : Event) : HttpEvent :=
  match e with
  | Get url result => HttpGet url (to_http result)
  | _ => Other e
  end.

Definition coarse (e : HttpEvent) : Event :=
  match e with
  | HttpGet url result =>
      Get url {| status_code := http_status_code result;
                 json := match http_body result with
                         | JsonBody parsed => parsed
                         | NotJson _ => []
                         end |}
  | Other e => e
  end.

(** The transport behind a requester all of whose bodies parse. *)
Definition http_of (rq : Requester) : HttpTransport :=
  λ tr url, to_http (get rq (map coarse tr) url).

(** A gateway that answers every GET with status 502 and an HTML page. *)
Definition bad_gateway : HttpTransport :=
  λ _ _, {| http_status_code := 502; http_body := NotJson "<html>502 Bad Gateway</html>" |}.

(** A transport that answers every GET with status 400 and a JSON body. *)
Definition bad_request : HttpTransport :=
  λ _ _, {| http_status_code := 400; http_body := JsonBody [] |}.

(** ** Running a method

    [run] unfolds the monad's operations in the goal. *)

Global Arguments convert_message_to_string : simpl never.
Global Arguments str_of_nat : simpl never.
Global Arguments PRReviewReporter.reviews_url : simpl never.

Ltac run :=
  unfold log_if_error, log_debug, log_error, emit, http_get, http_post, zoom,
    modify, ask;
  unfold mbind, M_bind, mret, M_ret; cbn.

(** ** Strings *)

Lemma append_cons a s t : String a s +:+ t = String a (s +:+ t).
Proof. reflexivity. Qed.

Lemma append_nil_r s : s +:+ "" = s.
Proof. induction s as [|a s IH]; [done|]. by rewrite append_cons, IH. Qed.

Lemma append_assoc s t u : (s +:+ t) +:+ u = s +:+ t +:+ u.
Proof. induction s as [|a s IH]; [done|]. by rewrite !append_cons, IH. Qed.

Lemma prefix_spec m s : String.prefix m s = true ↔ ∃ q, s = m +:+ q.
Proof.
  revert s. induction m as [|a m IH]; intros s; cbn.
  - split; [intros _; by exists s | by destruct s].
  - destruct s as [|b s]; cbn.
    + split; [done | by intros [q Hq]].
    + destruct (ascii_dec a b) as [->|Hne].
      * rewrite IH. setoid_rewrite append_cons.
        split; intros [q Hq]; exists q; congruence.
      * split; [done | intros [q Hq]; rewrite append_cons in Hq; congruence].
Qed.

Lemma str_in_nil m : str_in m "" = String.prefix m "".
Proof. cbn. apply orb_false_r. Qed.

Lemma str_in_cons m a s :
  str_in m (String a s) = String.prefix m (String a s) || str_in m s.
Proof. reflexivity. Qed.

(** [str_in] decides [substring]. *)
Lemma str_in_spec m s : str_in m s = true ↔ substring m s.
Proof.
  unfold substring. induction s as [|a s IH].
  - rewrite str_in_nil, prefix_spec. split.
    + intros [q Hq]. by exists "", q.
    + intros [p [q Hq]]. destruct p; [by exists q | done].
  - rewrite str_in_cons, orb_true_iff, prefix_spec, IH. split.
    + intros [[q Hq] | (p & q & Hq)].
      * by exists "", q.
      * exists (String a p), q. rewrite append_cons. congruence.
    + intros (p & q & Hq). destruct p as [|b p].
      * left. by exists q.
      * right. exists p, q. rewrite append_cons in Hq. congruence.
Qed.

Lemma str_in_false m s : str_in m s = false ↔ ¬ substring m s.
Proof. rewrite <- str_in_spec. by destruct (str_in m s). Qed.

(** ** Lists *)

Lemma filter_keeps_order {A} (f : A → bool) (l : list A) : sublist (List.filter f l) l.
Proof.
  induction l as [|x l IH]; cbn; [constructor|].
  destruct (f x); by constructor.
Qed.

Lemma filter_twice {A} (f : A → bool) (l : list A) :
  List.filter f (List.filter f l) = List.filter f l.
Proof.
  induction l as [|x l IH]; cbn; [done|].
  destruct (f x) eqn:E; cbn; [rewrite E; by f_equal | done].
Qed.

Lemma elem_of_survivors body (message : list string) m :
  m ∈ List.filter (λ m, negb (str_in m body)) message
  ↔ m ∈ message ∧ ¬ substring m body.
Proof.
  rewrite !list_elem_of_In, filter_In, negb_true_iff, str_in_false. tauto.
Qed.

(** ** The deduplicator *)

Section Deduplicator.

Context (self : GitHubReporter) (file_name : string) (position : Z).

Local Abbreviation here := (matches self file_name position).

Lemma same_place_matches comment :
  same_place self file_name position comment = true ↔ here comment.
Proof.
  unfold same_place, matches.
  rewrite !andb_true_iff, !bool_decide_eq_true. tauto.
Qed.

Lemma same_place_no_match comment :
  same_place self file_name position comment = false ↔ ¬ here comment.
Proof.
  rewrite <- same_place_matches.
  by destruct (same_place self file_name position comment).
Qed.

Lemma clean_no_match comments message :
  Forall (λ c, ¬ here c) comments →
  clean_already_reported self comments file_name position message = message.
Proof.
  induction 1 as [|c cs Hc _ IH]; [done|]. cbn.
  apply same_place_no_match in Hc. by rewrite Hc.
Qed.

Lemma clean_first_match pre comment post message :
  Forall (λ c, ¬ here c) pre →
  here comment →
  clean_already_reported self (pre ++ comment :: post) file_name position message
  = MList (List.filter (λ m, negb (str_in m (Comment.body comment))) (iter message)).
Proof.
  intros Hpre Hc. induction Hpre as [|c cs Hn _ IH]; cbn.
  - apply same_place_matches in Hc. by rewrite Hc.
  - apply same_place_no_match in Hn. by rewrite Hn.
Qed.

(** Either no comment matches, or there is a first one that does. *)
Lemma first_match_cases comments :
  Forall (λ c, ¬ here c) comments
  ∨ ∃ pre comment post,
      comments = pre ++ comment :: post
      ∧ Forall (λ c, ¬ here c) pre
      ∧ here comment.
Proof.
  induction comments as [|c cs IH]; [by left|].
  destruct (same_place self file_name position c) eqn:E.
  - right. exists [], c, cs. apply same_place_matches in E.
    split_and!; [done | constructor | done].
  - apply same_place_no_match in E.
    destruct IH as [IH | (pre & c' & post & -> & Hpre & Hc')].
    + left. by constructor.
    + right. exists (c :: pre), c', post. split_and!; [done | by constructor | done].
Qed.

End Deduplicator.

(** C2: [clean_already_reported] scans the existing comments in order; at
    the first comment with the given path and position written by the
    requester's username it returns exactly the candidate messages that are
    not substrings of that comment's body, in their order, whatever follows
    that comment; when no comment matches, the candidates come back
    unchanged. *)
Theorem clean_already_reported_first_match_only
    self (comments : list Comment.t) file_name position (message : list string) :
  (∀ pre comment post,
     comments = pre ++ comment :: post →
     Forall (λ c, ¬ matches self file_name position c) pre →
     matches self file_name position comment →
     ∃ survivors,
       clean_already_reported self comments file_name position (MList message)
       = MList survivors
       ∧ survivors = List.filter (λ m, negb (str_in m (Comment.body comment))) message
       ∧ sublist survivors message
       ∧ ∀ m, m ∈ survivors ↔ m ∈ message ∧ ¬ substring m (Comment.body comment))
  ∧ (Forall (λ c, ¬ matches self file_name position c) comments →
     clean_already_reported self comments file_name position (MList message)
     = MList message).
Proof.
  split.
  - intros pre comment post -> Hpre Hc. eexists. split; [|split; [reflexivity|split]].
    + by apply clean_first_match.
    + apply filter_keeps_order.
    + intros m. apply elem_of_survivors.
  - apply clean_no_match.
Qed.

Lemma clean_already_reported_first_match_only_witness :
  matches reporter_with_comment "foo.py" 2 get_that_out
  ∧ clean_already_reported reporter_with_comment [get_that_out; different_comment]
      "foo.py" 2 (MList ["Get that out"; "New message"])
    = MList ["New message"].
Proof.
  assert (Hm : matches reporter_with_comment "foo.py" 2 get_that_out)
    by (repeat split; reflexivity).
  split; [exact Hm|].
  destruct (clean_already_reported_first_match_only reporter_with_comment
              [get_that_out; different_comment] "foo.py" 2
              ["Get that out"; "New message"]) as [Hfirst _].
  destruct (Hfirst [] get_that_out [different_comment])
    as (survivors & -> & -> & _); [reflexivity | constructor | exact Hm | reflexivity].
Defined.

(** ** Counting transport calls in a trace *)

Lemma gets_app tr1 tr2 : gets (tr1 ++ tr2) = (gets tr1 + gets tr2)%nat.
Proof. unfold gets. by rewrite List.filter_app, length_app. Qed.

Lemma posts_app tr1 tr2 : posts (tr1 ++ tr2) = (posts tr1 + posts tr2)%nat.
Proof. unfold posts. by rewrite List.filter_app, length_app. Qed.

(** ** The comment cache *)

Lemma set_comments_same self : set_comments (_comments self) self = self.
Proof. by destruct self. Qed.

Lemma get_comments_cached url self tr :
  _comments self ≠ [] → get_comments url self tr = (_comments self, self, tr).
Proof.
  intros H. unfold get_comments. run. by destruct (_comments self).
Qed.

Lemma get_comments_fetch url self tr :
  _comments self = [] →
  let tr1 := tr ++ [Log Debug "PR Request: %s" (LUrl url)] in
  let result := get (requester self) tr1 url in
  get_comments url self tr =
    if bool_decide (400 ≤ status_code result)
    then ([], self,
          tr1 ++ [Get url result;
                  Log Error "Error requesting comments from github. %s"
                    (LJson (json result))])
    else (json result, set_comments (json result) self, tr1 ++ [Get url result]).
Proof.
  intros H tr1 result. unfold get_comments. run. rewrite H.
  fold tr1. fold result. case_bool_decide; run; [|done].
  by rewrite <- app_assoc.
Qed.

Lemma get_comments_each_cached urls self tr :
  _comments self ≠ [] →
  get_comments_each urls self tr
  = (replicate (length urls) (_comments self), self, tr).
Proof.
  intros H. induction urls as [|url urls IH]; [done|].
  cbn [get_comments_each]. unfold mbind, M_bind.
  rewrite get_comments_cached by done. rewrite IH. reflexivity.
Qed.

(** A failing fetch whose body parses: the call logs the error with the
    response body, returns the cache as it was (empty, or no GET would have
    been made) and leaves the reporter untouched. *)
Theorem get_comments_error_keeps_cache_empty self url tr :
  _comments self = [] →
  let tr1 := tr ++ [Log Debug "PR Request: %s" (LUrl url)] in
  let result := get (requester self) tr1 url in
  400 ≤ status_code result →
  get_comments url self tr
  = (_comments self, self,
     tr1 ++ [Get url result;
             Log Error "Error requesting comments from github. %s" (LJson (json result))])
  ∧ _comments self = [].
Proof.
  intros Hempty tr1 result Hstatus. split; [|done].
  rewrite (get_comments_fetch url self tr Hempty). fold tr1. fold result.
  rewrite bool_decide_eq_true_2 by done. by rewrite Hempty.
Qed.

(** [get_comments_http] over a transport whose bodies all parse is
    [get_comments]. *)
Lemma coarse_fine tr : map coarse (map fine tr) = tr.
Proof.
  induction tr as [|e tr IH]; [done|]. cbn. rewrite IH. f_equal.
  destruct e as [url [status body]| |]; done.
Qed.

Lemma get_comments_http_parsed url self tr :
  get_comments_http (http_of (requester self)) url self (map fine tr)
  = match get_comments url self tr with
    | (cs, self', tr') => (inr cs, self', map fine tr')
    end.
Proof.
  unfold get_comments_http, http_of.
  destruct (_comments self) eqn:E.
  - rewrite get_comments_fetch by done. cbv zeta.
    rewrite map_app, coarse_fine. cbn [map coarse app].
    case_bool_decide; cbn; case_bool_decide; try done.
    + rewrite !map_app. cbn. by rewrite <- !app_assoc.
    + rewrite !map_app. cbn. by rewrite <- ?app_assoc.
  - rewrite get_comments_cached by (by rewrite E). by rewrite E.
Qed.

(** C8, as stated, fails: on the error branch [result.json()] is evaluated
    to build the log entry.  When a gateway answers 502 with an HTML page,
    [get_comments] raises [JSONDecodeError]; nothing is logged. *)
Lemma get_comments_raises_on_unparsable_error_body :
  get_comments_http bad_gateway "example.com" fresh_reporter []
  = (inl JSONDecodeError, fresh_reporter,
     [Other (Log Debug "PR Request: %s" (LUrl "example.com"));
      HttpGet "example.com"
        {| http_status_code := 502; http_body := NotJson "<html>502 Bad Gateway</html>" |}]).
Proof. reflexivity. Qed.

(** C8, amended: when the GET of [get_comments] answers with a status of
    400 or more and the body of the response parses as JSON, the call logs
    the error with the parsed body, returns the cache as it was, which is
    empty, and returns normally; when the body does not parse, the
    [JSONDecodeError] of [result.json()] propagates out of [get_comments]
    and nothing is logged.  In both cases the reporter, and so the cache, is
    left as it was: nothing of the error response is stored. *)
Theorem get_comments_error_logs_or_raises (transport : HttpTransport) url self tr :
  _comments self = [] →
  let tr1 := tr ++ [Other (Log Debug "PR Request: %s" (LUrl url))] in
  let result := transport tr1 url in
  400 ≤ http_status_code result →
  (∀ body, http_body result = JsonBody body →
     get_comments_http transport url self tr
     = (inr [], self,
        tr1 ++ [HttpGet url result;
                Other (Log Error "Error requesting comments from github. %s"
                         (LJson body))]))
  ∧ (∀ text, http_body result = NotJson text →
       get_comments_http transport url self tr
       = (inl JSONDecodeError, self, tr1 ++ [HttpGet url result])).
Proof.
  intros Hempty tr1 result Hstatus. unfold get_comments_http, http_json.
  rewrite Hempty. fold tr1. fold result.
  rewrite bool_decide_eq_true_2 by done.
  split.
  - intros body ->. by rewrite <- app_assoc.
  - by intros text ->.
Qed.

Lemma get_comments_error_logs_or_raises_witness :
  (_comments failing_reporter = []
   ∧ 400 ≤ http_status_code
             (bad_request [Other (Log Debug "PR Request: %s" (LUrl "example.com"))]
                "example.com")
   ∧ get_comments_http bad_request "example.com" failing_reporter []
     = (inr [], failing_reporter,
        [Other (Log Debug "PR Request: %s" (LUrl "example.com"));
         HttpGet "example.com" {| http_status_code := 400; http_body := JsonBody [] |};
         Other (Log Error "Error requesting comments from github. %s" (LJson []))]))
  ∧ (400 ≤ http_status_code
             (bad_gateway [Other (Log Debug "PR Request: %s" (LUrl "example.com"))]
                "example.com")
     ∧ get_comments_http bad_gateway "example.com" failing_reporter []
       = (inl JSONDecodeError, failing_reporter,
          [Other (Log Debug "PR Request: %s" (LUrl "example.com"));
           HttpGet "example.com"
             {| http_status_code := 502;
                http_body := NotJson "<html>502 Bad Gateway</html>" |}])).
Proof.
  assert (H400 : 400 ≤ http_status_code
                   (bad_request [Other (Log Debug "PR Request: %s" (LUrl "example.com"))]
                      "example.com")) by (cbn; lia).
  assert (H502 : 400 ≤ http_status_code
                   (bad_gateway [Other (Log Debug "PR Request: %s" (LUrl "example.com"))]
                      "example.com")) by (cbn; lia).
  split.
  - split; [reflexivity|]. split; [exact H400|].
    exact (proj1 (get_comments_error_logs_or_raises bad_request "example.com"
                    failing_reporter [] eq_refl H400) [] eq_refl).
  - split; [exact H502|].
    exact (proj2 (get_comments_error_logs_or_raises bad_gateway "example.com"
                    failing_reporter [] eq_refl H502)
             "<html>502 Bad Gateway</html>" eq_refl).
Defined.

(** C1, as stated, fails: the cache has no fetched flag, [get_comments]
    tests the truth value of the stored list.  When the remote collection
    is empty, the second of two calls for the same target issues a second
    GET. *)
Lemma empty_collection_is_fetched_again :
  ∃ results self tr,
    get_comments_each ["example.com"; "example.com"] fresh_reporter []
    = (results, self, tr)
    ∧ results = [[]; []]
    ∧ gets tr = 2%nat.
Proof. by eexists _, _, _. Qed.

(** C1, amended: [get_comments] issues a GET exactly when the stored cache
    is empty at the time of the call, and then exactly one.  Once a fetch
    has stored a non-empty collection, every later call, for whatever
    target, returns it without a request: any number of calls on an
    unpopulated-then-populated cache issue exactly one GET.  A fetch that
    fails or returns an empty collection returns the empty list and leaves
    the reporter, and so the empty cache, as it was, and the next call, for
    whatever target, fetches again. *)
Theorem get_comments_fetches_while_cache_empty self url urls tr :
  (_comments self ≠ [] →
     get_comments_each (url :: urls) self tr
     = (replicate (S (length urls)) (_comments self), self, tr))
  ∧ (_comments self = [] →
     let tr1 := tr ++ [Log Debug "PR Request: %s" (LUrl url)] in
     let result := get (requester self) tr1 url in
     (∃ cs self' tr',
        get_comments url self tr = (cs, self', tr')
        ∧ gets tr' = S (gets tr)
        ∧ Get url result ∈ tr')
     ∧ (status_code result < 400 → json result ≠ [] →
        ∃ self' tr',
          get_comments_each (url :: urls) self tr
          = (replicate (S (length urls)) (json result), self', tr')
          ∧ _comments self' = json result
          ∧ gets tr' = S (gets tr))
     ∧ (400 ≤ status_code result ∨ json result = [] →
        ∃ tr',
          get_comments url self tr = ([], self, tr')
          ∧ ∀ url',
              let again :=
                get (requester self) (tr' ++ [Log Debug "PR Request: %s" (LUrl url')]) url' in
              ∃ cs'' self'' tr'',
                get_comments url' self tr' = (cs'', self'', tr'')
                ∧ gets tr'' = S (S (gets tr))
                ∧ Get url' again ∈ tr'')).
Proof.
  assert (Hfetch : ∀ u t, _comments self = [] →
            ∃ cs self' tr',
              get_comments u self t = (cs, self', tr')
              ∧ gets tr' = S (gets t)
              ∧ Get u (get (requester self) (t ++ [Log Debug "PR Request: %s" (LUrl u)]) u)
                ∈ tr').
  { intros u t Hempty. rewrite (get_comments_fetch u self t Hempty). cbv zeta.
    case_bool_decide; eexists _, _, _; (split; [reflexivity|]);
      rewrite !gets_app; cbn; (split; [lia|]);
      rewrite !elem_of_app; right; apply list_elem_of_here. }
  split.
  - intros H. by rewrite get_comments_each_cached.
  - intros Hempty tr1 result.
    pose proof (get_comments_fetch url self tr Hempty) as Hrun.
    cbv zeta in Hrun. fold tr1 in Hrun. fold result in Hrun.
    split_and!.
    + exact (Hfetch url tr Hempty).
    + intros Hok Hne. rewrite bool_decide_eq_false_2 in Hrun by lia.
      cbn [get_comments_each]. unfold mbind, M_bind. rewrite Hrun.
      rewrite get_comments_each_cached by done.
      eexists _, _. split; [reflexivity|]. split; [done|].
      subst tr1. rewrite !gets_app. cbn. lia.
    + intros Hbad.
      assert (∃ tr', get_comments url self tr = ([], self, tr') ∧ gets tr' = S (gets tr))
        as (tr' & Hrun' & Hgets).
      { rewrite Hrun. case_bool_decide.
        - eexists. split; [reflexivity|]. subst tr1. rewrite !gets_app. cbn. lia.
        - destruct Hbad as [? | Hnil]; [lia|]. rewrite Hnil.
          assert (set_comments [] self = self) as ->
            by (rewrite <- Hempty; apply set_comments_same).
          eexists. split; [reflexivity|]. subst tr1. rewrite !gets_app. cbn. lia. }
      exists tr'. split; [exact Hrun'|]. intros url' again.
      destruct (Hfetch url' tr' Hempty) as (cs'' & self'' & tr'' & Hagain & Hg & Hin).
      exists cs'', self'', tr''. split; [exact Hagain|]. split; [lia | exact Hin].
Qed.

Lemma get_comments_fetches_while_cache_empty_witness :
  (_comments cached_reporter ≠ []
   ∧ get_comments_each ["example.com"; "example.org"] cached_reporter []
     = ([[get_that_out]; [get_that_out]], cached_reporter, []))
  ∧ (_comments reporter_with_comment = []
     ∧ ∃ self' tr',
         get_comments_each ["example.com"; "example.org"; "example.com"]
           reporter_with_comment []
         = ([[get_that_out]; [get_that_out]; [get_that_out]], self', tr')
         ∧ gets tr' = 1%nat)
  ∧ (_comments failing_reporter = []
     ∧ ∃ tr' cs'' self'' tr'',
         get_comments "example.com" failing_reporter [] = ([], failing_reporter, tr')
         ∧ get_comments "example.org" failing_reporter tr' = (cs'', self'', tr'')
         ∧ gets tr'' = 2%nat).
Proof.
  split; [|split].
  - assert (Hfull : _comments cached_reporter ≠ []) by discriminate.
    split; [exact Hfull|].
    exact (proj1 (get_comments_fetches_while_cache_empty cached_reporter
                    "example.com" ["example.org"] []) Hfull).
  - split; [reflexivity|].
    destruct (proj2 (get_comments_fetches_while_cache_empty reporter_with_comment
                       "example.com" ["example.org"; "example.com"] []) eq_refl)
      as (_ & H & _).
    destruct H as (self' & tr' & Hrun & _ & Hgets); [cbn; lia | discriminate |].
    exists self', tr'. split; [exact Hrun | exact Hgets].
  - split; [reflexivity|].
    destruct (proj2 (get_comments_fetches_while_cache_empty failing_reporter
                       "example.com" [] []) eq_refl)
      as (_ & _ & H).
    destruct H as (tr' & Hrun & Hnext); [left; cbn; lia|].
    destruct (Hnext "example.org") as (cs'' & self'' & tr'' & Hagain & Hgets & _).
    exists tr', cs'', self'', tr''. split; [exact Hrun|]. split; [exact Hagain | exact Hgets].
Defined.

(** ** The payload builder *)

Lemma clean_list self comments file_name position (message : list string) :
  clean_already_reported self comments file_name position (MList message)
  = MList (surviving self comments file_name position message).
Proof.
  unfold surviving. induction comments as [|c cs IH]; cbn; [done|].
  by destruct (same_place self file_name position c).
Qed.

Lemma surviving_sublist self comments file_name position message :
  sublist (surviving self comments file_name position message) message.
Proof.
  unfold surviving.
  destruct (first_match_cases self file_name position comments)
    as [Hno | (pre & c & post & -> & Hpre & Hc)].
  - by rewrite clean_no_match.
  - rewrite clean_first_match by done. apply filter_keeps_order.
Qed.

Lemma bullets_cons m l : bullets (m :: l) = ("* " +:+ m +:+ newline) +:+ bullets l.
Proof.
  unfold bullets. cbn [map String.concat]. destruct (map _ l) eqn:E; [|done].
  cbn. by rewrite append_nil_r.
Qed.

Lemma fold_bullets (l : list string) acc :
  fold_left (λ final_message submessage,
               final_message +:+ "* " +:+ submessage +:+ newline) l acc
  = acc +:+ bullets l.
Proof.
  revert acc. induction l as [|m l IH]; intros acc.
  - cbn. by rewrite append_nil_r.
  - cbn [fold_left]. by rewrite IH, bullets_cons, append_assoc.
Qed.

Lemma convert_message_to_string_bullets (l : list string) :
  convert_message_to_string (MList l) = bullets l.
Proof. unfold convert_message_to_string. cbn. by rewrite fold_bullets. Qed.

Lemma get_comments_keeps_requester url self tr :
  requester (get_comments url self tr).1.2 = requester self.
Proof.
  destruct (_comments self) eqn:E.
  - rewrite get_comments_fetch by done. cbv zeta. by case_bool_decide.
  - rewrite get_comments_cached by (rewrite E; done). done.
Qed.

(** [get_payload], unfolded: fetch, normalise, deduplicate, render. *)
Lemma get_payload_run url commit commit_key file_name position message self tr :
  get_payload url commit commit_key file_name position message self tr
  = match get_comments url self tr with
    | (existing, self1, tr1) =>
        match surviving self existing file_name position (as_list message) with
        | [] => (None, self1, tr1 ++ [Log Debug "Message already reported" LNothing])
        | (_ :: _) as survivors =>
            let payload := line_payload (bullets survivors) file_name position in
            (Some match commit_key, commit with
                  | Some k, Some c => <[k := VStr c]> payload
                  | _, _ => payload
                  end, self1, tr1)
        end
    end.
Proof.
  unfold get_payload. run.
  pose proof (get_comments_keeps_requester url self tr) as Hrq.
  destruct (get_comments url self tr) as [[existing self1] tr1]. cbn in Hrq.
  assert (Hclean : ∀ m, clean_already_reported self1 existing file_name position m
                        = clean_already_reported self existing file_name position m).
  { intros m. induction existing as [|c cs IH]; cbn; [done|].
    unfold same_place. by rewrite Hrq, IH. }
  rewrite Hclean, clean_list.
  destruct (surviving self existing file_name position (as_list message)) eqn:E; cbn.
  - done.
  - rewrite convert_message_to_string_bullets.
    by destruct commit_key, commit.
Qed.

Lemma line_payload_fields body file_name position :
  line_payload body file_name position !! "body" = Some (VStr body)
  ∧ line_payload body file_name position !! "path" = Some (VStr file_name)
  ∧ line_payload body file_name position !! "position" = Some (VInt position).
Proof. unfold line_payload. by simplify_map_eq. Qed.

Lemma line_payload_dom body file_name position :
  dom (line_payload body file_name position) = ({["body"; "path"; "position"]} : gset string).
Proof. unfold line_payload. rewrite !dom_insert_L, dom_singleton_L. set_solver. Qed.

(** C3, as stated, fails in two ways.  Deduplication consults only the
    first comment at the path and position by the acting identity: with the
    two comments of [test_clean_already_reported] in the cache, reporting
    "Different comment", the body of the second, at the same path and
    position builds a payload, not null.  And the commit reference is stored
    with a plain dict assignment, so the field name "body" replaces the
    rendered body by the commit reference. *)
Lemma identical_message_is_reported_after_first_match :
  match get_payload "example.com" (Some "sha") (Some "commit_id") "foo.py" 2
          (MStr "Different comment")
          (set_comments [get_that_out; different_comment] reporter_with_comment) [] with
  | (Some payload, _, _) =>
      payload !! "body" = Some (VStr ("* Different comment" +:+ newline))
  | (None, _, _) => False
  end
  ∧ match get_payload "example.com" (Some "deadbeef") (Some "body") "setup.py" 0
            (MList ["test"]) fresh_reporter [] with
    | (Some payload, _, _) =>
        payload !! "body" = Some (VStr "deadbeef")
        ∧ payload !! "body" ≠ Some (VStr (bullets ["test"]))
    | (None, _, _) => False
    end.
Proof. vm_compute. split; [reflexivity|]. split; [reflexivity | discriminate]. Qed.

(** C3, amended: [get_payload] returns null if and only if no candidate
    survives deduplication against the fetched comments; otherwise, provided
    the commit field name (when both commit arguments are non-null) is none
    of "body", "path" and "position", the payload's body is the
    concatenation, in input order, of the surviving messages each prefixed
    with "* " and followed by a line break, with the given path and
    position.  A candidate equal to the body of the first fetched comment at
    the same path and position by the acting identity yields null, whatever
    comments follow that one. *)
Theorem get_payload_null_iff_nothing_survives
    url commit commit_key file_name position message self tr :
  ∃ existing self1 tr1 payload tr2,
    get_comments url self tr = (existing, self1, tr1)
    ∧ get_payload url commit commit_key file_name position message self tr
      = (payload, self1, tr2)
    ∧ let survivors := surviving self existing file_name position (as_list message) in
      sublist survivors (as_list message)
      ∧ (payload = None ↔ survivors = [])
      ∧ (∀ p, payload = Some p → no_clash commit commit_key →
           p !! "body" = Some (VStr (bullets survivors))
           ∧ p !! "path" = Some (VStr file_name)
           ∧ p !! "position" = Some (VInt position))
      ∧ (∀ pre comment post,
           existing = pre ++ comment :: post →
           Forall (λ c, ¬ matches self file_name position c) pre →
           matches self file_name position comment →
           as_list message = [Comment.body comment] →
           payload = None).
Proof.
  pose proof (get_payload_run url commit commit_key file_name position message self tr)
    as Hrun.
  destruct (get_comments url self tr) as [[existing self1] tr1].
  exists existing, self1, tr1.
  pose proof (surviving_sublist self existing file_name position (as_list message)) as Hsub.
  assert (Hsame : ∀ pre comment post,
             existing = pre ++ comment :: post →
             Forall (λ c, ¬ matches self file_name position c) pre →
             matches self file_name position comment →
             as_list message = [Comment.body comment] →
             surviving self existing file_name position (as_list message) = []).
  { intros pre c post -> Hpre Hc ->. unfold surviving.
    rewrite clean_first_match by done. cbn.
    assert (str_in (Comment.body c) (Comment.body c) = true) as ->; [|done].
    apply str_in_spec. exists "", "". by rewrite append_nil_r. }
  destruct (surviving self existing file_name position (as_list message))
    as [|m survivors] eqn:E.
  - eexists _, _. split; [done|]. split; [exact Hrun|]. cbn.
    split_and!; [done | done | done | done].
  - eexists _, _. split; [done|]. split; [exact Hrun|]. cbv zeta.
    split_and!; [done | done | | ].
    + intros p [= <-] Hclash.
      pose proof (line_payload_fields (bullets (m :: survivors)) file_name position)
        as (Hb & Hp & Hn).
      destruct commit_key as [k|], commit as [c|]; try done.
      destruct (Hclash k c) as (? & ? & ?); [done..|].
      by rewrite !lookup_insert_ne.
    + intros pre c post Hex Hpre Hc Hmsg. by specialize (Hsame pre c post Hex Hpre Hc Hmsg).
Qed.

Lemma get_payload_null_iff_nothing_survives_witness :
  matches cached_reporter "foo.py" 2 get_that_out
  ∧ no_clash (Some "sha") (Some "commit_id")
  ∧ (get_payload "example.com" (Some "sha") (Some "commit_id") "foo.py" 2
       (MStr "Get that out") cached_reporter []).1.1 = None
  ∧ ∃ p,
      (get_payload "example.com" (Some "sha") (Some "commit_id") "foo.py" 2
         (MList ["Get that out"; "New message"]) cached_reporter []).1.1 = Some p
      ∧ p !! "body" = Some (VStr ("* New message" +:+ newline))
      ∧ p !! "path" = Some (VStr "foo.py")
      ∧ p !! "position" = Some (VInt 2).
Proof.
  assert (Hm : matches cached_reporter "foo.py" 2 get_that_out)
    by (repeat split; reflexivity).
  assert (Hclash : no_clash (Some "sha") (Some "commit_id"))
    by (intros k c [= <-] _; repeat split; discriminate).
  split; [exact Hm|]. split; [exact Hclash|]. split.
  - destruct (get_payload_null_iff_nothing_survives "example.com" (Some "sha")
                (Some "commit_id") "foo.py" 2 (MStr "Get that out") cached_reporter [])
      as (existing & self1 & tr1 & payload & tr2 & Hgc & -> & _ & _ & _ & Hsame).
    injection Hgc as <- <- <-.
    exact (Hsame [] get_that_out [] eq_refl (List.Forall_nil _) Hm eq_refl).
  - destruct (get_payload_null_iff_nothing_survives "example.com" (Some "sha")
                (Some "commit_id") "foo.py" 2 (MList ["Get that out"; "New message"])
                cached_reporter [])
      as (existing & self1 & tr1 & payload & tr2 & Hgc & -> & _ & Hnull & Hfields & _).
    injection Hgc as <- <- <-.
    destruct payload as [p|].
    + exists p. split; [reflexivity|]. exact (Hfields p eq_refl Hclash).
    + destruct Hnull as [Hnull _]. discriminate (Hnull eq_refl).
Defined.

(** ** What a call adds to the trace *)

(** [get_comments] changes nothing but the cache, returns the cache, never
    posts, and issues a GET exactly when the cache was empty. *)
Lemma get_comments_effect url self tr :
  ∃ cs evs,
    get_comments url self tr = (cs, set_comments cs self, tr ++ evs)
    ∧ posts evs = 0%nat
    ∧ gets evs = (if _comments self is [] then 1 else 0)%nat.
Proof.
  destruct (_comments self) as [|c cs] eqn:E.
  - rewrite get_comments_fetch by done. cbv zeta. case_bool_decide.
    + exists [], [Log Debug "PR Request: %s" (LUrl url);
                 Get url (get (requester self) (tr ++ [Log Debug "PR Request: %s" (LUrl url)]) url);
                 Log Error "Error requesting comments from github. %s"
                   (LJson (json (get (requester self)
                                   (tr ++ [Log Debug "PR Request: %s" (LUrl url)]) url)))].
      rewrite <- E, set_comments_same, <- app_assoc. done.
    + eexists _, [_; _]. rewrite <- app_assoc. done.
  - exists (c :: cs), []. rewrite get_comments_cached, app_nil_r by (by rewrite E).
    by rewrite E, <- E, set_comments_same.
Qed.

Lemma get_payload_effect url commit commit_key file_name position message self tr :
  ∃ payload cs evs,
    get_payload url commit commit_key file_name position message self tr
    = (payload, set_comments cs self, tr ++ evs)
    ∧ posts evs = 0%nat
    ∧ gets evs = (if _comments self is [] then 1 else 0)%nat.
Proof.
  rewrite get_payload_run.
  destruct (get_comments_effect url self tr) as (cs & evs & -> & Hp & Hg).
  destruct (surviving self cs file_name position (as_list message)).
  - eexists _, cs, (evs ++ [_]). rewrite app_assoc. split; [done|].
    rewrite posts_app, gets_app, Hp, Hg. cbn. split; [done|]. lia.
  - by eexists _, cs, evs.
Qed.

(** ** The commit field *)

Lemma review_report_line_run commit file_name position message self tr :
  PRReviewReporter.report_line commit file_name position message self tr
  = match get_payload (PRReporter.pr_comments_url (PRReviewReporter.base self))
            None None file_name position message (PRReviewReporter.github self) tr with
    | (None, g, tr1) => (None, PRReviewReporter.set_github g self, tr1)
    | (Some payload, g, tr1) =>
        (None,
         PRReviewReporter.set_comments (PRReviewReporter.comments self ++ [payload])
           (PRReviewReporter.set_github g self),
         tr1)
    end.
Proof.
  unfold PRReviewReporter.report_line. run.
  destruct (get_payload _ _ _ _ _ _ _ _) as [[[payload|] g] tr1]; done.
Qed.

(** C7: the payload of [get_payload] is the three-field dict with the commit
    reference stored under the given field name when both commit arguments
    are non-null, and the bare three-field dict, with no further key,
    otherwise; the payloads [PRReviewReporter.report_line] appends are
    built with both arguments null and so are bare. *)
Theorem commit_field_iff_both_given
    url commit commit_key file_name position message self tr
    (batcher : PRReviewReporter.t) :
  (∀ payload self' tr',
     get_payload url commit commit_key file_name position message self tr
     = (Some payload, self', tr') →
     ∃ body,
       (∀ k c, commit_key = Some k → commit = Some c →
          payload = <[k := VStr c]> (line_payload body file_name position)
          ∧ payload !! k = Some (VStr c))
       ∧ (commit_key = None ∨ commit = None →
          payload = line_payload body file_name position
          ∧ dom payload = ({["body"; "path"; "position"]} : gset string)))
  ∧ (∀ sha result batcher' tr',
       PRReviewReporter.report_line sha file_name position message batcher tr
       = (result, batcher', tr') →
       PRReviewReporter.comments batcher' = PRReviewReporter.comments batcher
       ∨ ∃ body payload,
           PRReviewReporter.comments batcher'
           = PRReviewReporter.comments batcher ++ [payload]
           ∧ payload = line_payload body file_name position
           ∧ dom payload = ({["body"; "path"; "position"]} : gset string)).
Proof.
  split.
  - intros payload self' tr'. rewrite get_payload_run.
    destruct (get_comments url self tr) as [[existing self1] tr1].
    destruct (surviving self existing file_name position (as_list message))
      as [|m l]; [done|].
    intros [= <- <- <-]. exists (bullets (m :: l)). split.
    + intros k c -> ->. split; [done|]. apply lookup_insert_eq.
    + intros [-> | ->]; [|destruct commit_key]; split; auto using line_payload_dom.
  - intros sha result batcher' tr'. rewrite review_report_line_run, get_payload_run.
    destruct (get_comments _ _ tr) as [[existing self1] tr1].
    destruct (surviving _ existing file_name position (as_list message)) as [|m l].
    + intros [= <- <- <-]. by left.
    + intros [= <- <- <-]. right. eexists _, _. split; [done|].
      split; [done|]. apply line_payload_dom.
Qed.

Lemma commit_field_iff_both_given_witness :
  (∃ payload,
     (get_payload "example.com" (Some "sha") (Some "commit_id") "foo.py" 2
        (MList ["New message"]) cached_reporter []).1.1 = Some payload
     ∧ payload !! "commit_id" = Some (VStr "sha"))
  ∧ Forall (λ payload, dom payload = ({["body"; "path"; "position"]} : gset string))
      (PRReviewReporter.comments
         (PRReviewReporter.report_line "sha" "script.py" 0 (MStr "lorem")
            review_reporter []).1.2).
Proof.
  destruct (commit_field_iff_both_given "example.com" (Some "sha") (Some "commit_id")
              "foo.py" 2 (MList ["New message"]) cached_reporter [] review_reporter)
    as [Hpayload _].
  destruct (commit_field_iff_both_given "example.com" None None
              "script.py" 0 (MStr "lorem") cached_reporter [] review_reporter)
    as [_ Hreview].
  split.
  - destruct (get_payload "example.com" (Some "sha") (Some "commit_id") "foo.py" 2
                (MList ["New message"]) cached_reporter [])
      as [[[payload|] self'] tr'] eqn:E.
    + destruct (Hpayload payload self' tr' eq_refl) as (body & Hboth & _).
      exists payload. split; [reflexivity|].
      exact (proj2 (Hboth "commit_id" "sha" eq_refl eq_refl)).
    + vm_compute in E. discriminate E.
  - destruct (PRReviewReporter.report_line "sha" "script.py" 0 (MStr "lorem")
                review_reporter []) as [[result batcher'] tr'] eqn:E.
    destruct (Hreview "sha" result batcher' tr' E)
      as [Hsame | (body & payload & Hadd & _ & Hdom)]; cbn; rewrite ?Hsame, ?Hadd.
    + constructor.
    + repeat constructor. exact Hdom.
Defined.

(** ** PRReviewReporter *)

Lemma submit_review_run self tr :
  PRReviewReporter.submit_review self tr
  = let url := PRReviewReporter.reviews_url self in
    let self1 := PRReviewReporter.set_pr_reviews_url url self in
    match PRReviewReporter.comments self with
    | [] => (None, self1, tr)
    | _ :: _ =>
        let payload :=
          ReviewBody
            {| review_body :=
                 "Imhotep detected "
                   +:+ str_of_nat (length (PRReviewReporter.comments self))
                   +:+ " potential problems with this PR.";
               review_event := "COMMENT";
               review_comments := PRReviewReporter.comments self |} in
        let tr1 := tr ++ [Log Debug "PR Request: %s" (LUrl url);
                          Log Debug "PR Payload: %s" (LPayload payload)] in
        let result := post (requester (PRReviewReporter.github self)) tr1 url payload in
        (Some result, self1,
         tr1 ++ Post url payload result
             :: if bool_decide (400 ≤ status_code result)
                then [Log Error "Error posting review to github. %s" (LJson (json result))]
                else [])
    end.
Proof.
  unfold PRReviewReporter.submit_review. run.
  destruct (PRReviewReporter.comments self); [done|].
  rewrite <- !app_assoc. cbn.
  case_bool_decide; run; rewrite <- ?app_assoc; done.
Qed.

Example str_of_nat_examples :
  str_of_nat 1 = "1" ∧ str_of_nat 10 = "10" ∧ str_of_nat 123 = "123".
Proof. by vm_compute. Qed.

(** C5: [submit_review] with nothing pending returns null and touches
    neither the transport nor the logger; with N payloads pending it makes
    exactly one POST, to the reviews endpoint, of the body
    "Imhotep detected N potential problems with this PR.", the event
    "COMMENT" and the pending payloads as comments, and returns the
    transport's response. *)
Theorem submit_review_posts_one_review (self : PRReviewReporter.t) tr :
  let url :=
    "https://api." +:+ domain (PRReviewReporter.github self)
      +:+ "/repos/" +:+ repo_name (PRReviewReporter.github self)
      +:+ "/pulls/" +:+ PRReporter.pr_number (PRReviewReporter.base self)
      +:+ "/reviews" in
  let self' := PRReviewReporter.set_pr_reviews_url url self in
  (PRReviewReporter.comments self = [] →
     PRReviewReporter.submit_review self tr = (None, self', tr))
  ∧ (PRReviewReporter.comments self ≠ [] →
     let payload :=
       ReviewBody
         {| review_body :=
              "Imhotep detected "
                +:+ str_of_nat (length (PRReviewReporter.comments self))
                +:+ " potential problems with this PR.";
            review_event := "COMMENT";
            review_comments := PRReviewReporter.comments self |} in
     let tr1 := tr ++ [Log Debug "PR Request: %s" (LUrl url);
                       Log Debug "PR Payload: %s" (LPayload payload)] in
     let result := post (requester (PRReviewReporter.github self)) tr1 url payload in
     ∃ tr',
       PRReviewReporter.submit_review self tr = (Some result, self', tr')
       ∧ tr' = tr1 ++ Post url payload result
                   :: (if bool_decide (400 ≤ status_code result)
                       then [Log Error "Error posting review to github. %s"
                               (LJson (json result))]
                       else [])
       ∧ posts tr' = S (posts tr)
       ∧ gets tr' = gets tr).
Proof.
  intros url self'. rewrite submit_review_run.
  change (PRReviewReporter.reviews_url self) with url. cbv zeta. fold self'.
  split.
  - by intros ->.
  - intros Hne. destruct (PRReviewReporter.comments self) eqn:E; [done|].
    eexists. split; [reflexivity|]. split; [reflexivity|].
    rewrite !posts_app, !gets_app. case_bool_decide; cbn; lia.
Qed.

Lemma submit_review_posts_one_review_witness :
  PRReviewReporter.submit_review review_reporter []
  = (None,
     PRReviewReporter.set_pr_reviews_url
       "https://api.github.com/repos/justinabrahms/imhotep/pulls/10/reviews"
       review_reporter, [])
  ∧ ∃ self' tr',
      PRReviewReporter.submit_review
        (PRReviewReporter.set_comments
           [line_payload ("* lorem" +:+ newline) "script.py" 0;
            line_payload ("* ipsum" +:+ newline) "script.py" 1] review_reporter) []
      = (Some {| status_code := 201; json := [] |}, self', tr')
      ∧ posts tr' = 1%nat.
Proof.
  split.
  - exact (proj1 (submit_review_posts_one_review review_reporter []) eq_refl).
  - destruct (proj2 (submit_review_posts_one_review
                       (PRReviewReporter.set_comments
                          [line_payload ("* lorem" +:+ newline) "script.py" 0;
                           line_payload ("* ipsum" +:+ newline) "script.py" 1]
                          review_reporter) []))
      as (tr' & Hrun & _ & Hposts & _); [discriminate|].
    eexists _, tr'. split; [exact Hrun | exact Hposts].
Defined.

Lemma review_report_line_effect commit file_name position message self tr :
  ∃ self' evs,
    PRReviewReporter.report_line commit file_name position message self tr
    = (None, self', tr ++ evs)
    ∧ posts evs = 0%nat
    ∧ (gets evs ≤ 1)%nat.
Proof.
  rewrite review_report_line_run.
  destruct (get_payload_effect (PRReporter.pr_comments_url (PRReviewReporter.base self))
              None None file_name position message (PRReviewReporter.github self) tr)
    as (payload & cs & evs & -> & Hp & Hg).
  destruct payload; eexists _, evs; (split; [reflexivity|]); split; try done;
    rewrite Hg; destruct (_comments _); lia.
Qed.

Lemma report_lines_never_post (cs : list Call) self tr :
  Forall (λ c, c ≠ SubmitReview) cs →
  posts (run_calls cs self tr).2 = posts tr.
Proof.
  intros H. revert self tr. induction H as [|c cs Hc _ IH]; intros self tr; [done|].
  cbn [run_calls]. destruct c as [commit file_name position message|]; [|done].
  cbn [call].
  destruct (review_report_line_effect commit file_name position message self tr)
    as (self' & evs & -> & Hp & _).
  rewrite IH, posts_app, Hp. lia.
Qed.

(** C4: in every sequence of calls on a [PRReviewReporter], a [report_line]
    returns null and adds no POST to the trace, whatever came before: it does
    what [get_payload] (with null commit arguments) does and appends the
    payload, when there is one, to the pending comments.  A [submit_review]
    posts exactly when comments are pending, and then once.  A sequence of
    [report_line] calls alone never posts. *)
Theorem review_posts_only_on_submit (cs : list Call) (c : Call) self tr :
  (Forall (λ c, c ≠ SubmitReview) cs → posts (run_calls cs self tr).2 = posts tr)
  ∧ match run_calls cs self tr with
    | (self1, tr1) =>
        match call c self1 tr1 with
        | (result, self2, tr2) =>
            match c with
            | ReportLine commit file_name position message =>
                result = None
                ∧ posts tr2 = posts tr1
                ∧ match get_payload (PRReporter.pr_comments_url (PRReviewReporter.base self1))
                          None None file_name position message
                          (PRReviewReporter.github self1) tr1 with
                  | (None, g, tr') =>
                      tr2 = tr' ∧ self2 = PRReviewReporter.set_github g self1
                  | (Some payload, g, tr') =>
                      tr2 = tr'
                      ∧ self2 = PRReviewReporter.set_comments
                                  (PRReviewReporter.comments self1 ++ [payload])
                                  (PRReviewReporter.set_github g self1)
                  end
            | SubmitReview =>
                (PRReviewReporter.comments self1 = [] → result = None ∧ tr2 = tr1)
                ∧ (PRReviewReporter.comments self1 ≠ [] →
                   is_Some result ∧ posts tr2 = S (posts tr1))
            end
        end
    end.
Proof.
  split; [apply report_lines_never_post|].
  destruct (run_calls cs self tr) as [self1 tr1].
  destruct c as [commit file_name position message|]; cbn [call].
  - destruct (review_report_line_effect commit file_name position message self1 tr1)
      as (self' & evs & Hrun & Hp & _).
    rewrite Hrun. split; [done|]. split; [rewrite posts_app; lia|].
    rewrite review_report_line_run in Hrun.
    destruct (get_payload _ _ _ _ _ _ _ _) as [[[payload|] g] tr'];
      by injection Hrun as <- <-.
  - rewrite submit_review_run. cbv zeta.
    destruct (PRReviewReporter.comments self1); [done|].
    split; [done|]. intros _. split; [done|].
    rewrite !posts_app. case_bool_decide; cbn; lia.
Qed.

(** "lorem" at position 0 then "ipsum" at position 1, as in
    [test_pr_review_reporter_should_add_comments], then a submission. *)
Lemma review_posts_only_on_submit_witness :
  let lines := [ReportLine "sha" "script.py" 0 (MStr "lorem");
                ReportLine "sha" "script.py" 1 (MStr "ipsum")] in
  let pending := run_calls lines review_reporter [] in
  Forall (λ c, c ≠ SubmitReview) lines
  ∧ posts pending.2 = 0%nat
  ∧ PRReviewReporter.comments pending.1
    = [line_payload ("* lorem" +:+ newline) "script.py" 0;
       line_payload ("* ipsum" +:+ newline) "script.py" 1]
  ∧ posts (call SubmitReview pending.1 pending.2).2 = 1%nat.
Proof.
  intros lines pending.
  assert (Hlines : Forall (λ c, c ≠ SubmitReview) lines)
    by (repeat constructor; discriminate).
  assert (Hpending : PRReviewReporter.comments pending.1
                     = [line_payload ("* lorem" +:+ newline) "script.py" 0;
                        line_payload ("* ipsum" +:+ newline) "script.py" 1])
    by (vm_compute; reflexivity).
  destruct (review_posts_only_on_submit lines SubmitReview review_reporter [])
    as [Hnone Hsubmit].
  specialize (Hnone Hlines). fold pending in Hnone, Hsubmit.
  split; [exact Hlines|]. split; [exact Hnone|]. split; [exact Hpending|].
  destruct pending as [self1 tr1]. cbn [fst snd] in *.
  destruct (call SubmitReview self1 tr1) as [[result self2] tr2].
  destruct Hsubmit as [_ Hsome]. cbn [fst snd] in *.
  destruct Hsome as [_ Hposts]; [rewrite Hpending; discriminate|].
  rewrite Hposts, Hnone. reflexivity.
Defined.

(** ** CommitReporter and PRReporter *)

Lemma deliver_effect url payload self tr :
  ∃ result evs,
    CommitReporter.deliver url payload self tr = (result, self, tr ++ evs)
    ∧ gets evs = 0%nat
    ∧ posts evs = (if payload is Some _ then 1 else 0)%nat.
Proof.
  destruct payload as [payload|]; cbn [CommitReporter.deliver].
  - run. case_bool_decide; run; rewrite <- !app_assoc; by eexists _, _.
  - exists None, []. by rewrite app_nil_r.
Qed.

Lemma commit_report_line_run commit file_name position message self tr :
  CommitReporter.report_line commit file_name position message self tr
  = let url := CommitReporter.report_url self commit in
    match get_comments url self tr with
    | (comments, self1, tr1) =>
        match get_payload url (Some commit) (Some "commit_sha") file_name position
                (clean_already_reported self comments file_name position message)
                self1 tr1 with
        | (payload, self2, tr2) => CommitReporter.deliver url payload self2 tr2
        end
    end.
Proof. reflexivity. Qed.

Lemma pr_report_line_effect commit file_name position message self tr :
  ∃ result self' evs,
    PRReporter.report_line commit file_name position message self tr
    = (result, self', tr ++ evs)
    ∧ (gets evs ≤ 1)%nat
    ∧ (posts evs ≤ 1)%nat.
Proof.
  unfold PRReporter.report_line. run.
  destruct (get_payload_effect (PRReporter.pr_comments_url self) (Some commit)
              (Some "commit_id") file_name position message (PRReporter.base self) tr)
    as (payload & cs & evs & -> & Hp & Hg).
  assert (gets evs ≤ 1)%nat by (rewrite Hg; destruct (_comments _); lia).
  destruct payload as [payload|]; run.
  - case_bool_decide; run; rewrite <- !app_assoc; eexists _, _, _;
      (split; [reflexivity|]); rewrite gets_app, posts_app, Hp; cbn; lia.
  - eexists _, _, _. split; [reflexivity|]. lia.
Qed.

Lemma commit_report_line_effect commit file_name position message self tr :
  let url := CommitReporter.report_url self commit in
  let result := get (requester self) (tr ++ [Log Debug "PR Request: %s" (LUrl url)]) url in
  ∃ response self' evs,
    CommitReporter.report_line commit file_name position message self tr
    = (response, self', tr ++ evs)
    ∧ (posts evs ≤ 1)%nat
    ∧ gets evs
      = (if _comments self is [] then
           if bool_decide (400 ≤ status_code result)%Z then 2
           else if json result is [] then 2 else 1
         else 0)%nat.
Proof.
  intros url result. rewrite commit_report_line_run. cbv zeta. fold url.
  assert (Htail : ∀ m self1 evs1,
    ∃ response self' evs,
      match get_payload url (Some commit) (Some "commit_sha") file_name position m
              self1 (tr ++ evs1) with
      | (payload, self2, tr2) => CommitReporter.deliver url payload self2 tr2
      end = (response, self', tr ++ evs)
      ∧ (posts evs ≤ posts evs1 + 1)%nat
      ∧ gets evs = (gets evs1 + if _comments self1 is [] then 1 else 0)%nat).
  { intros m self1 evs1.
    destruct (get_payload_effect url (Some commit) (Some "commit_sha") file_name
                position m self1 (tr ++ evs1)) as (payload & cs & evs2 & -> & Hp & Hg).
    destruct (deliver_effect url payload (set_comments cs self1) ((tr ++ evs1) ++ evs2))
      as (response & evs3 & -> & Hg3 & Hp3).
    exists response, (set_comments cs self1), (evs1 ++ evs2 ++ evs3).
    rewrite !app_assoc. split; [done|].
    rewrite !posts_app, !gets_app, Hp, Hg, Hg3, Hp3. destruct payload; lia. }
  destruct (_comments self) as [|c cs] eqn:E.
  - rewrite get_comments_fetch by done. cbv zeta. fold result. case_bool_decide.
    + destruct (Htail (clean_already_reported self [] file_name position message) self
                  [Log Debug "PR Request: %s" (LUrl url); Get url result;
                   Log Error "Error requesting comments from github. %s"
                     (LJson (json result))])
        as (response & self' & evs & Hrun & Hp & Hg).
      rewrite <- app_assoc. cbn [app]. rewrite Hrun. exists response, self', evs.
      split; [done|]. rewrite Hg, E. cbn in *. split; lia.
    + destruct (Htail (clean_already_reported self (json result) file_name position message)
                  (set_comments (json result) self)
                  [Log Debug "PR Request: %s" (LUrl url); Get url result])
        as (response & self' & evs & Hrun & Hp & Hg).
      rewrite <- app_assoc. cbn [app]. rewrite Hrun. exists response, self', evs.
      split; [done|]. rewrite Hg. cbn in *. split; [lia|]. by destruct (json result).
  - rewrite get_comments_cached by (by rewrite E).
    destruct (Htail (clean_already_reported self (_comments self) file_name position message)
                self []) as (response & self' & evs & Hrun & Hp & Hg).
    rewrite app_nil_r in Hrun. rewrite Hrun. exists response, self', evs.
    split; [done|]. rewrite Hg, E. cbn in *. split; lia.
Qed.

Lemma pr_report_line_gets commit file_name position message self tr :
  ∃ result self' evs,
    PRReporter.report_line commit file_name position message self tr
    = (result, self', tr ++ evs)
    ∧ gets evs = (if _comments (PRReporter.base self) is [] then 1 else 0)%nat
    ∧ (posts evs ≤ 1)%nat.
Proof.
  unfold PRReporter.report_line. run.
  destruct (get_payload_effect (PRReporter.pr_comments_url self) (Some commit)
              (Some "commit_id") file_name position message (PRReporter.base self) tr)
    as (payload & cs & evs & -> & Hp & Hg).
  destruct payload as [payload|]; run.
  - case_bool_decide; run; rewrite <- !app_assoc; eexists _, _, _;
      (split; [reflexivity|]); rewrite gets_app, posts_app, Hp, Hg; cbn; split; lia.
  - eexists _, _, _. split; [reflexivity|]. split; [done | lia].
Qed.

Lemma review_report_line_gets commit file_name position message self tr :
  ∃ self' evs,
    PRReviewReporter.report_line commit file_name position message self tr
    = (None, self', tr ++ evs)
    ∧ posts evs = 0%nat
    ∧ gets evs = (if _comments (PRReviewReporter.github self) is [] then 1 else 0)%nat.
Proof.
  rewrite review_report_line_run.
  destruct (get_payload_effect (PRReporter.pr_comments_url (PRReviewReporter.base self))
              None None file_name position message (PRReviewReporter.github self) tr)
    as (payload & cs & evs & -> & Hp & Hg).
  destruct payload; by eexists _, evs.
Qed.

(** C6, as stated, fails for [CommitReporter]: its [report_line] calls
    [get_comments] itself and again through [get_payload]; when the first
    fetch leaves the cache empty, the second call fetches again. *)
Lemma commit_report_line_fetches_twice :
  match report_line (S := GitHubReporter) "sha" "setup.py" 0 (MStr "test")
          fresh_reporter [] with
  | (_, _, tr) => gets tr = 2%nat ∧ ¬ (gets tr ≤ 1)%nat
  end.
Proof. vm_compute. split; [reflexivity | lia]. Qed.

(** C6, amended: one [report_line] of [PRReporter] or [PRReviewReporter]
    performs one GET when the cache is empty and none otherwise, so at most
    one.  One [report_line] of [CommitReporter] performs at most two: two
    exactly when the cache is empty and the first fetch fails or returns an
    empty collection, one exactly when the cache is empty and the first
    fetch stores a non-empty collection, none exactly when the cache is
    populated.  Each performs at most one POST, and [PRReviewReporter]
    none. *)
Theorem report_line_transport_calls commit file_name position message
    (committer : GitHubReporter) (pr : PRReporter.t) (batcher : PRReviewReporter.t) tr :
  (let url := CommitReporter.report_url committer commit in
   let result :=
     get (requester committer) (tr ++ [Log Debug "PR Request: %s" (LUrl url)]) url in
   ∃ response self' evs,
     report_line (S := GitHubReporter) commit file_name position message committer tr
     = (response, self', tr ++ evs)
     ∧ (posts evs ≤ 1)%nat
     ∧ (gets evs ≤ 2)%nat
     ∧ (gets evs = 2%nat
        ↔ _comments committer = [] ∧ (400 ≤ status_code result ∨ json result = []))
     ∧ (gets evs = 1%nat
        ↔ _comments committer = [] ∧ status_code result < 400 ∧ json result ≠ [])
     ∧ (gets evs = 0%nat ↔ _comments committer ≠ []))
  ∧ (∃ response self' evs,
       report_line (S := PRReporter.t) commit file_name position message pr tr
       = (response, self', tr ++ evs)
       ∧ (posts evs ≤ 1)%nat
       ∧ (gets evs ≤ 1)%nat
       ∧ (gets evs = 1%nat ↔ _comments (PRReporter.base pr) = []))
  ∧ (∃ response self' evs,
       report_line (S := PRReviewReporter.t) commit file_name position message batcher tr
       = (response, self', tr ++ evs)
       ∧ posts evs = 0%nat
       ∧ (gets evs ≤ 1)%nat
       ∧ (gets evs = 1%nat ↔ _comments (PRReviewReporter.github batcher) = [])).
Proof.
  split_and!.
  - intros url result.
    destruct (commit_report_line_effect commit file_name position message committer tr)
      as (response & self' & evs & Hrun & Hp & Hg).
    fold url in Hg. fold result in Hg.
    exists response, self', evs. split; [exact Hrun|]. split; [exact Hp|].
    rewrite Hg. destruct (_comments committer) as [|c cs].
    + case_bool_decide.
      * split_and!; [lia | | | ]; (split; [intros; try done; try lia | ]).
        -- by auto.
        -- done.
        -- intros (_ & ? & _). lia.
        -- done.
      * destruct (json result) eqn:E.
        -- split_and!; [lia | | | ]; (split; [intros; try done; try lia | ]).
           ++ by auto.
           ++ done.
           ++ by intros (_ & _ & ?).
           ++ done.
        -- split_and!; [lia | | | ]; (split; [intros; try done; try lia | ]).
           ++ intros [_ [? | ?]]; [lia | done].
           ++ split_and!; [done | lia | done].
           ++ done.
           ++ done.
    + split_and!; [lia | | | ]; (split; [intros; try done; try lia | ]).
      * by intros [? _].
      * by intros [? _].
      * done.
  - destruct (pr_report_line_gets commit file_name position message pr tr)
      as (response & self' & evs & Hrun & Hg & Hp).
    exists response, self', evs. split; [exact Hrun|]. split; [exact Hp|].
    rewrite Hg. destruct (_comments (PRReporter.base pr)); split; try lia; by split.
  - destruct (review_report_line_gets commit file_name position message batcher tr)
      as (self' & evs & Hrun & Hp & Hg).
    exists None, self', evs. split; [exact Hrun|]. split; [exact Hp|].
    rewrite Hg. destruct (_comments (PRReviewReporter.github batcher));
      split; try lia; by split.
Qed.

Lemma report_line_transport_calls_witness :
  (* cache populated: no GET *)
  (_comments cached_reporter ≠ []
   ∧ ∃ response self' evs,
       report_line (S := GitHubReporter) "sha" "foo.py" 2 (MStr "Get that out")
         cached_reporter []
       = (response, self', [] ++ evs)
       ∧ gets evs = 0%nat)
  (* cache empty, the fetch stores a comment: one GET *)
  ∧ (_comments reporter_with_comment = []
     ∧ ∃ response self' evs,
         report_line (S := GitHubReporter) "sha" "foo.py" 2 (MStr "Get that out")
           reporter_with_comment []
         = (response, self', [] ++ evs)
         ∧ gets evs = 1%nat)
  (* cache empty, the remote collection empty: two GETs *)
  ∧ (_comments fresh_reporter = []
     ∧ ∃ response self' evs,
         report_line (S := GitHubReporter) "sha" "foo.py" 2 (MStr "Get that out")
           fresh_reporter []
         = (response, self', [] ++ evs)
         ∧ gets evs = 2%nat)
  (* PRReporter with an empty cache: one GET *)
  ∧ ∃ response self' evs,
      report_line (S := PRReporter.t) "sha" "foo.py" 2 (MStr "Get that out")
        pr_reporter []
      = (response, self', [] ++ evs)
      ∧ gets evs = 1%nat.
Proof.
  split; [|split; [|split]].
  - split; [discriminate|].
    destruct (report_line_transport_calls "sha" "foo.py" 2 (MStr "Get that out")
                cached_reporter pr_reporter review_reporter []) as [Hcommit _].
    destruct Hcommit as (response & self' & evs & Hrun & _ & _ & _ & _ & Hnone).
    exists response, self', evs. split; [exact Hrun|]. apply Hnone. discriminate.
  - split; [reflexivity|].
    destruct (report_line_transport_calls "sha" "foo.py" 2 (MStr "Get that out")
                reporter_with_comment pr_reporter review_reporter []) as [Hcommit _].
    destruct Hcommit as (response & self' & evs & Hrun & _ & _ & _ & Hone & _).
    exists response, self', evs. split; [exact Hrun|]. apply Hone.
    split; [reflexivity|]. split; [cbn; lia | discriminate].
  - split; [reflexivity|].
    destruct (report_line_transport_calls "sha" "foo.py" 2 (MStr "Get that out")
                fresh_reporter pr_reporter review_reporter []) as [Hcommit _].
    destruct Hcommit as (response & self' & evs & Hrun & _ & _ & Htwo & _).
    exists response, self', evs. split; [exact Hrun|]. apply Htwo.
    split; [reflexivity|]. right. reflexivity.
  - destruct (report_line_transport_calls "sha" "foo.py" 2 (MStr "Get that out")
                fresh_reporter pr_reporter review_reporter []) as (_ & Hpr & _).
    destruct Hpr as (response & self' & evs & Hrun & _ & _ & Hone).
    exists response, self', evs. split; [exact Hrun|]. apply Hone. reflexivity.
Defined.

(** ** Deduplicating twice *)

Lemma clean_set_comments cache self comments file_name position message :
  clean_already_reported (set_comments cache self) comments file_name position message
  = clean_already_reported self comments file_name position message.
Proof. induction comments as [|c cs IH]; cbn; [done|]. by rewrite IH. Qed.

Lemma surviving_set_comments cache self comments file_name position message :
  surviving (set_comments cache self) comments file_name position message
  = surviving self comments file_name position message.
Proof. unfold surviving. by rewrite clean_set_comments. Qed.

Lemma surviving_idempotent self comments file_name position message :
  surviving self comments file_name position
    (surviving self comments file_name position message)
  = surviving self comments file_name position message.
Proof.
  unfold surviving.
  destruct (first_match_cases self file_name position comments)
    as [Hno | (pre & c & post & -> & Hpre & Hc)].
  - by rewrite !clean_no_match.
  - rewrite !clean_first_match by done. cbn. apply filter_twice.
Qed.

(** C9: on a list of messages [clean_already_reported] returns a sublist
    of its input, in order, and applying it again to its own output, with the
    same comments, file name and position, changes nothing; so
    [CommitReporter.report_line], which deduplicates before [get_payload]
    deduplicates again, does what it would do without the first pass. *)
Theorem clean_already_reported_idempotent
    self comments file_name position (message : list string) commit tr :
  ∃ survivors,
    clean_already_reported self comments file_name position (MList message)
    = MList survivors
    ∧ sublist survivors message
    ∧ clean_already_reported self comments file_name position (MList survivors)
      = MList survivors
    ∧ CommitReporter.report_line commit file_name position (MList message) self tr
      = (let url := CommitReporter.report_url self commit in
         _ ← get_comments url;
         payload ← get_payload url (Some commit) (Some "commit_sha")
                     file_name position (MList message);
         CommitReporter.deliver url payload) self tr.
Proof.
  exists (surviving self comments file_name position message).
  split; [apply clean_list|]. split; [apply surviving_sublist|].
  split; [by rewrite clean_list, surviving_idempotent|].
  rewrite commit_report_line_run. cbv zeta. unfold mbind, M_bind.
  destruct (get_comments_effect (CommitReporter.report_url self commit) self tr)
    as (cs & evs & -> & _ & _).
  rewrite !get_payload_run. destruct cs as [|c cs]; [done|].
  rewrite get_comments_cached by done. cbn [_comments set_comments].
  rewrite clean_list. cbn [as_list].
  by rewrite !surviving_set_comments, surviving_idempotent.
Qed.

(** ** A string message in CommitReporter *)

Lemma chars_letters s : Forall (λ ch, ∃ a, ch = String a "") (chars s).
Proof. induction s as [|a s IH]; cbn; constructor; eauto. Qed.

Lemma concat_chars s : String.concat "" (chars s) = s.
Proof.
  induction s as [|a s IH]; [done|]. cbn [chars String.concat].
  destruct (chars s) eqn:E; cbn in *; by rewrite <- IH.
Qed.

(** C10: when [CommitReporter.report_line] is given a single string and
    some fetched comment matches the file name, the position and the acting
    username, its own deduplication pass walks the string character by
    character: [get_payload] is handed the list of the one-character strings
    of the message that do not occur in the body of the first matching
    comment, not the one-element list holding the message. *)
Theorem commit_reporter_splits_string_message
    commit file_name position (s : string) self tr comments self1 tr1 pre comment post :
  let url := CommitReporter.report_url self commit in
  get_comments url self tr = (comments, self1, tr1) →
  comments = pre ++ comment :: post →
  Forall (λ c, ¬ matches self file_name position c) pre →
  matches self file_name position comment →
  let letters :=
    List.filter (λ ch, negb (str_in ch (Comment.body comment))) (chars s) in
  clean_already_reported self comments file_name position (MStr s) = MList letters
  ∧ CommitReporter.report_line commit file_name position (MStr s) self tr
    = (payload ← get_payload url (Some commit) (Some "commit_sha")
                   file_name position (MList letters);
       CommitReporter.deliver url payload) self1 tr1
  ∧ (∀ ch, ch ∈ letters ↔ ch ∈ chars s ∧ ¬ substring ch (Comment.body comment))
  ∧ Forall (λ ch, ∃ a, ch = String a "") (chars s)
  ∧ String.concat "" (chars s) = s.
Proof.
  intros url Hfetch -> Hpre Hc letters.
  assert (Hclean : clean_already_reported self (pre ++ comment :: post)
                     file_name position (MStr s) = MList letters)
    by (by rewrite clean_first_match).
  split; [exact Hclean|]. split.
  - rewrite commit_report_line_run. cbv zeta. fold url.
    by rewrite Hfetch, Hclean.
  - split; [intros ch; apply elem_of_survivors|].
    split; [apply chars_letters | apply concat_chars].
Qed.

Lemma commit_reporter_splits_string_message_witness :
  get_comments (CommitReporter.report_url cached_reporter "sha") cached_reporter []
  = ([get_that_out], cached_reporter, [])
  ∧ matches cached_reporter "foo.py" 2 get_that_out
  ∧ clean_already_reported cached_reporter [get_that_out] "foo.py" 2 (MStr "New")
    = MList ["N"; "w"].
Proof.
  assert (Hm : matches cached_reporter "foo.py" 2 get_that_out)
    by (repeat split; reflexivity).
  split; [reflexivity|]. split; [exact Hm|].
  exact (proj1 (commit_reporter_splits_string_message "sha" "foo.py" 2 "New"
                  cached_reporter [] [get_that_out] cached_reporter []
                  [] get_that_out [] eq_refl eq_refl (List.Forall_nil _) Hm)).
Defined.

(** The payload [CommitReporter] posts for the message "New" against the
    cached comment "Get that out": one bullet per surviving character. *)
Example commit_reporter_posts_letters :
  match CommitReporter.report_line "sha" "foo.py" 2 (MStr "New") cached_reporter [] with
  | (_, _, tr) =>
      ∃ url payload response,
        last tr = Some (Post url (LineBody payload) response)
        ∧ payload !! "body" = Some (VStr ("* N" +:+ newline +:+ "* w" +:+ newline))
  end.
Proof. vm_compute. by eexists _, _, _. Qed.

(** ** The tests of reporters_test.py, replayed on the embedding *)

Example test_commit_url :
  match CommitReporter.report_line "sha" "setup.py" 0 (MStr "test") fresh_reporter [] with
  | (_, _, tr) =>
      ∃ payload response,
        last tr = Some (Post "https://api.github.com/repos/foo/bar/commits/sha/comments"
                          payload response)
  end.
Proof. vm_compute. by eexists _, _. Qed.

Example test_pr_url :
  match PRReporter.report_line "sha" "setup.py" 0 (MStr "test") pr_reporter [] with
  | (_, _, tr) =>
      ∃ payload response,
        last tr
        = Some (Post "https://api.github.com/repos/justinabrahms/imhotep/pulls/10/comments"
                  payload response)
  end.
Proof. vm_compute. by eexists _, _. Qed.

Example test_pr_review_reporter_should_post_review :
  match PRReviewReporter.submit_review
          (PRReviewReporter.set_comments
             [line_payload ("* lorem" +:+ newline) "script.py" 0;
              line_payload ("* ipsum" +:+ newline) "script.py" 1] review_reporter) [] with
  | (_, _, tr) =>
      ∃ response,
        last tr
        = Some (Post "https://api.github.com/repos/justinabrahms/imhotep/pulls/10/reviews"
                  (ReviewBody
                     {| review_body := "Imhotep detected 2 potential problems with this PR.";
                        review_event := "COMMENT";
                        review_comments :=
                          [line_payload ("* lorem" +:+ newline) "script.py" 0;
                           line_payload ("* ipsum" +:+ newline) "script.py" 1] |})
                  response)
  end.
Proof. vm_compute. by eexists. Qed.

Example test_pr_already_reported :
  (PRReporter.report_line "sha" "foo.py" 2 (MStr "Get that out")
     (PRReporter.set_base cached_reporter pr_reporter) []).1.1 = None.
Proof. reflexivity. Qed.

Example test_get_comments_error :
  (get_comments "example.com" failing_reporter []).1.1 = [].
Proof. reflexivity. Qed.

Example test_clean_already_reported :
  clean_already_reported cached_reporter [get_that_out; different_comment] "foo.py" 2
    (MList ["Get that out"; "New message"])
  = MList ["New message"].
Proof. reflexivity. Qed.

Example test_convert_message_to_string :
  convert_message_to_string (MList ["foo"; "bar"])
  = "* foo" +:+ newline +:+ "* bar" +:+ newline.
Proof. reflexivity. Qed.

(** * Further properties of the reporters *)

(** ** What was posted *)

Lemma posted_app tr1 tr2 : posted (tr1 ++ tr2) = posted tr1 ++ posted tr2.
Proof. unfold posted. apply omap_app. Qed.

Lemma posted_cons e tr : posted (e :: tr) = posted [e] ++ posted tr.
Proof. apply (posted_app [e]). Qed.

Lemma gets_cons e tr : gets (e :: tr) = (gets [e] + gets tr)%nat.
Proof. apply (gets_app [e]). Qed.

Lemma posts_cons e tr : posts (e :: tr) = (posts [e] + posts tr)%nat.
Proof. apply (posts_app [e]). Qed.

Lemma posted_length tr : length (posted tr) = posts tr.
Proof.
  unfold posted, posts. induction tr as [|e tr IH]; [done|].
  destruct e; cbn; by rewrite ?IH.
Qed.

Lemma posted_nil_posts evs : posts evs = 0%nat → posted evs = [].
Proof. rewrite <- posted_length. by destruct (posted evs). Qed.

Lemma posted_error_log fmt result : posted (error_log fmt result) = [].
Proof. unfold error_log. by case_bool_decide. Qed.

Lemma gets_error_log fmt result : gets (error_log fmt result) = 0%nat.
Proof. unfold error_log. by case_bool_decide. Qed.

Lemma log_if_error_run {S} fmt result (self : S) tr :
  log_if_error fmt result self tr = (tt, self, tr ++ error_log fmt result).
Proof.
  unfold log_if_error, error_log. case_bool_decide; run; [done|].
  by rewrite app_nil_r.
Qed.

(** ** post_comment *)

Lemma post_comment_run message self tr :
  PRReporter.post_comment message self tr
  = let url :=
      "https://api." +:+ domain (PRReporter.base self)
        +:+ "/repos/" +:+ repo_name (PRReporter.base self)
        +:+ "/issues/" +:+ PRReporter.pr_number self +:+ "/comments" in
    let result := post (requester (PRReporter.base self)) tr url (IssueBody message) in
    (result, self,
     tr ++ Post url (IssueBody message) result
        :: error_log "Error posting comment to github. %s" result).
Proof.
  unfold PRReporter.post_comment, error_log. run.
  case_bool_decide; run; by rewrite <- ?app_assoc.
Qed.

(** X1: [post_comment] is independent of the comment cache and of
    deduplication: whatever the cache holds, it makes exactly one POST, of the
    body-only payload, to the issue comments url of the pull request, makes
    no GET, leaves the reporter as it was, and returns the transport's
    response, with an error log exactly when the status is 400 or more. *)
Theorem post_comment_always_posts_once message self tr :
  ∃ result evs,
    PRReporter.post_comment message self tr = (result, self, tr ++ evs)
    ∧ posted evs
      = [("https://api." +:+ domain (PRReporter.base self)
            +:+ "/repos/" +:+ repo_name (PRReporter.base self)
            +:+ "/issues/" +:+ PRReporter.pr_number self +:+ "/comments",
          IssueBody message)]
    ∧ gets evs = 0%nat
    ∧ Post ("https://api." +:+ domain (PRReporter.base self)
              +:+ "/repos/" +:+ repo_name (PRReporter.base self)
              +:+ "/issues/" +:+ PRReporter.pr_number self +:+ "/comments")
        (IssueBody message) result ∈ evs
    ∧ (Log Error "Error posting comment to github. %s" (LJson (json result)) ∈ evs
       ↔ 400 ≤ status_code result).
Proof.
  rewrite post_comment_run. cbv zeta. eexists _, _. split; [reflexivity|].
  split; [by rewrite posted_cons, posted_error_log|].
  split; [by rewrite gets_cons, gets_error_log|].
  split; [apply list_elem_of_here|].
  unfold error_log. case_bool_decide as Hs; (split; [intros Hin | intros Hge]).
  - done.
  - apply list_elem_of_further, list_elem_of_here.
  - apply elem_of_cons in Hin as [? | Hin]; [done|]. by apply elem_of_nil in Hin.
  - done.
Qed.

(** ** What report_line posts *)

Lemma get_comments_posts_nothing url self tr :
  ∃ cs evs,
    get_comments url self tr = (cs, set_comments cs self, tr ++ evs)
    ∧ posted evs = []
    ∧ gets evs = (if _comments self is [] then 1 else 0)%nat.
Proof.
  destruct (get_comments_effect url self tr) as (cs & evs & Hrun & Hp & Hg).
  exists cs, evs. split; [done|]. split; [by apply posted_nil_posts | done].
Qed.

Lemma deliver_run url payload self tr :
  CommitReporter.deliver url (Some payload) self tr
  = let tr2 := tr ++ [Log Debug "Commit Request: %s" (LUrl url);
                      Log Debug "Commit Payload: %s" (LPayload (LineBody payload))] in
    let result := post (requester self) tr2 url (LineBody payload) in
    (Some result, self,
     tr2 ++ Post url (LineBody payload) result
         :: error_log "Error posting line to github. %s" result).
Proof.
  unfold CommitReporter.deliver, error_log. run.
  rewrite <- !app_assoc. cbn.
  case_bool_decide; run; by rewrite <- ?app_assoc.
Qed.

Lemma pr_report_line_run commit file_name position message self tr :
  PRReporter.report_line commit file_name position message self tr
  = let url := PRReporter.pr_comments_url self in
    match get_payload url (Some commit) (Some "commit_id") file_name position message
            (PRReporter.base self) tr with
    | (None, g, tr1) => (None, PRReporter.set_base g self, tr1)
    | (Some payload, g, tr1) =>
        let tr2 := tr1 ++ [Log Debug "PR Request: %s" (LUrl url);
                           Log Debug "PR Payload: %s" (LPayload (LineBody payload))] in
        let result := post (requester (PRReporter.base self)) tr2 url (LineBody payload) in
        (Some result, PRReporter.set_base g self,
         tr2 ++ Post url (LineBody payload) result
             :: error_log "Error posting line to github. %s" result)
    end.
Proof.
  unfold PRReporter.report_line, error_log. run.
  destruct (get_payload _ _ _ _ _ _ _ _) as [[[payload|] g] tr1]; [|done].
  run. rewrite <- !app_assoc. cbn.
  case_bool_decide; run; by rewrite <- ?app_assoc.
Qed.

(** X2: [PRReporter.report_line] returns null, and posts nothing, exactly
    when no candidate survives deduplication against the fetched comments.
    Otherwise it makes one POST, to the comments url of the pull request, of
    the three-field payload of the survivors with "commit_id" set to the
    commit, and returns the transport's response to that POST whatever its
    status.  Only the cache of the reporter changes. *)
Theorem pr_report_line_posts_survivors commit file_name position message self tr :
  let url := PRReporter.pr_comments_url self in
  ∃ existing tr1,
    get_comments url (PRReporter.base self) tr
    = (existing, set_comments existing (PRReporter.base self), tr1)
    ∧ let survivors := surviving (PRReporter.base self) existing file_name position
                         (as_list message) in
      let payload :=
        LineBody (<["commit_id" := VStr commit]>
                    (line_payload (bullets survivors) file_name position)) in
      let tr2 := tr1 ++ [Log Debug "PR Request: %s" (LUrl url);
                         Log Debug "PR Payload: %s" (LPayload payload)] in
      ∃ response tr',
        PRReporter.report_line commit file_name position message self tr
        = (response,
           PRReporter.set_base (set_comments existing (PRReporter.base self)) self, tr')
        ∧ (response = None ↔ survivors = [])
        ∧ (survivors = [] → posted tr' = posted tr)
        ∧ (survivors ≠ [] →
           posted tr' = posted tr ++ [(url, payload)]
           ∧ response = Some (post (requester (PRReporter.base self)) tr2 url payload)).
Proof.
  intros url. rewrite pr_report_line_run. cbv zeta. rewrite get_payload_run. fold url.
  destruct (get_comments_posts_nothing url (PRReporter.base self) tr)
    as (existing & evs & Hrun & Hp & _).
  exists existing, (tr ++ evs). split; [exact Hrun|]. rewrite Hrun.
  destruct (surviving _ existing file_name position (as_list message)) as [|m l].
  - eexists _, _. split; [reflexivity|]. split; [done|]. split; [|done].
    intros _. by rewrite !posted_app, Hp, !app_nil_r.
  - eexists _, _. split; [reflexivity|]. split; [done|]. split; [done|].
    intros _. split; [|done].
    rewrite !posted_app, Hp, (posted_cons (Post _ _ _)), posted_error_log. cbn.
    by rewrite !app_nil_r.
Qed.

Lemma pr_report_line_posts_survivors_witness :
  surviving cached_reporter [get_that_out] "foo.py" 2 ["Get that out"; "New message"]
  = ["New message"]
  ∧ ∃ self' tr',
      PRReporter.report_line "sha" "foo.py" 2 (MList ["Get that out"; "New message"])
        (PRReporter.set_base cached_reporter pr_reporter) []
      = (Some {| status_code := 201; json := [] |}, self', tr')
      ∧ posted tr'
        = [("https://api.github.com/repos/justinabrahms/imhotep/pulls/10/comments",
            LineBody (<["commit_id" := VStr "sha"]>
                        (line_payload ("* New message" +:+ newline) "foo.py" 2)))].
Proof.
  split; [reflexivity|].
  destruct (pr_report_line_posts_survivors "sha" "foo.py" 2
              (MList ["Get that out"; "New message"])
              (PRReporter.set_base cached_reporter pr_reporter) [])
    as (existing & tr1 & Hfetch & response & tr' & Hrun & _ & _ & Hposted).
  injection Hfetch as He _ Ht. subst existing tr1.
  destruct Hposted as [Hposted ->]; [discriminate|].
  eexists _, tr'. split; [exact Hrun | exact Hposted].
Defined.



(** ** What the operations leave alone *)

Lemma get_payload_frame url commit commit_key file_name position message self tr :
  ∃ payload cs evs,
    get_payload url commit commit_key file_name position message self tr
    = (payload, set_comments cs self, tr ++ evs)
    ∧ posts evs = 0%nat
    ∧ (gets evs ≤ 1)%nat
    ∧ (_comments self ≠ [] → cs = _comments self ∧ gets evs = 0%nat).
Proof.
  rewrite get_payload_run.
  destruct (get_comments_effect url self tr) as (cs & evs & Hrun & Hp & Hg).
  assert (Hcached : _comments self ≠ [] → cs = _comments self).
  { intros Hne. rewrite get_comments_cached in Hrun by done. by injection Hrun as <- _ _. }
  rewrite Hrun.
  assert (gets evs ≤ 1)%nat by (rewrite Hg; destruct (_comments self); lia).
  assert (_comments self ≠ [] → gets evs = 0%nat)
    by (intros Hne; rewrite Hg; by destruct (_comments self)).
  destruct (surviving self cs file_name position (as_list message)).
  - eexists _, cs, (evs ++ [_]). rewrite app_assoc. split; [done|].
    rewrite posts_app, gets_app, Hp. cbn. split; [done|]. split; [lia|].
    intros Hne. split; [auto|]. rewrite (H0 Hne). done.
  - eexists _, cs, evs. split; [done|]. split; [done|]. split; [done|]. auto.
Qed.

(** One operation of a [PRReviewReporter]: what it may change and what it
    may call. *)
Lemma do_op_frame o self tr :
  ∃ cs added evs,
    do_op o self tr
    = (PRReviewReporter.mk
         (PRReporter.set_base (set_comments cs (PRReviewReporter.github self))
            (PRReviewReporter.base self))
         (PRReviewReporter.comments self ++ added)
         (if o is OpSubmitReview then Some (PRReviewReporter.reviews_url self)
          else PRReviewReporter.pr_reviews_url self),
       tr ++ evs)
    ∧ (length added ≤ if is_report_line o then 1 else 0)%nat
    ∧ (gets evs ≤ if is_report_line o then 1 else 0)%nat
    ∧ (posts evs ≤ if is_report_line o then 0 else 1)%nat
    ∧ (cs = _comments (PRReviewReporter.github self)
       ∨ _comments (PRReviewReporter.github self) = [])
    ∧ (_comments (PRReviewReporter.github self) ≠ [] → gets evs = 0%nat).
Proof.
  destruct self as [[g pr url] pending reviews]. destruct o as [commit f p m| |message].
  - cbn [do_op]. rewrite review_report_line_run. cbn.
    destruct (get_payload_frame url None None f p m g tr)
      as (payload & cs & evs & -> & Hp & Hg & Hcached).
    assert (cs = _comments g ∨ _comments g = []) as Hcs.
    { destruct (_comments g) eqn:E; [by right|]. left. by apply Hcached. }
    destruct payload as [payload|].
    + exists cs, [payload], evs. cbn. split; [done|]. split_and!; try done; try lia.
      intros Hne. by apply Hcached.
    + exists cs, [], evs. rewrite app_nil_r. cbn. split; [done|].
      split_and!; try done; try lia. intros Hne. by apply Hcached.
  - cbn [do_op]. rewrite submit_review_run. cbv zeta. cbn.
    destruct pending as [|c pending].
    + exists (_comments g), [], []. rewrite !app_nil_r, set_comments_same. cbn.
      split; [done|]. split_and!; try done; try lia. by left.
    + eexists (_comments g), [], _.
      rewrite (app_nil_r (c :: pending)), set_comments_same. cbn.
      rewrite <- app_assoc. split; [reflexivity|].
      rewrite !gets_app, !posts_app, (gets_cons (Post _ _ _)), (posts_cons (Post _ _ _)).
      unfold error_log. split_and!; try done; try (by left);
        case_bool_decide; cbn; lia.
  - cbn [do_op]. unfold review_post_comment, zoom. rewrite post_comment_run. cbv zeta. cbn.
    eexists (_comments g), [], _. rewrite (app_nil_r pending), set_comments_same.
    split; [reflexivity|].
    rewrite (gets_cons (Post _ _ _)), (posts_cons (Post _ _ _)).
    unfold error_log. split_and!; try done; try (by left);
      case_bool_decide; cbn; lia.
Qed.

Lemma run_ops_app os1 os2 self tr :
  run_ops (os1 ++ os2) self tr
  = run_ops os2 (run_ops os1 self tr).1 (run_ops os1 self tr).2.
Proof.
  revert self tr. induction os1 as [|o os1 IH]; intros self tr; [done|].
  cbn [app run_ops]. destruct (do_op o self tr) as [self' tr']. apply IH.
Qed.

(** X4: a populated cache is never refreshed.  Once the cache holds a
    non-empty collection, no operation of any strategy changes it or issues
    a GET again: one [report_line] of [CommitReporter] or [PRReporter] leaves
    the reporter exactly as it was, and any sequence of [report_line],
    [submit_review] and [post_comment] on a [PRReviewReporter] leaves its
    cache as it was. *)
Theorem populated_cache_is_never_refreshed
    commit file_name position message
    (committer : GitHubReporter) (pr : PRReporter.t) (batcher : PRReviewReporter.t)
    (os : list Op) tr :
  (_comments committer ≠ [] →
     ∃ response evs,
       CommitReporter.report_line commit file_name position message committer tr
       = (response, committer, tr ++ evs)
       ∧ gets evs = 0%nat)
  ∧ (_comments (PRReporter.base pr) ≠ [] →
     ∃ response evs,
       PRReporter.report_line commit file_name position message pr tr
       = (response, pr, tr ++ evs)
       ∧ gets evs = 0%nat)
  ∧ (_comments (PRReviewReporter.github batcher) ≠ [] →
     PRReviewReporter.github (run_ops os batcher tr).1 = PRReviewReporter.github batcher
     ∧ gets (run_ops os batcher tr).2 = gets tr).
Proof.
  split_and!.
  - intros Hne. rewrite commit_report_line_run. cbv zeta.
    rewrite get_comments_cached by done.
    destruct (get_payload_frame (CommitReporter.report_url committer commit) (Some commit)
                (Some "commit_sha") file_name position
                (clean_already_reported committer (_comments committer)
                   file_name position message) committer tr)
      as (payload & cs & evs & -> & _ & _ & Hcached).
    destruct (Hcached Hne) as [-> Hg]. rewrite set_comments_same.
    destruct (deliver_effect (CommitReporter.report_url committer commit) payload
                committer (tr ++ evs)) as (response & evs' & -> & Hg' & _).
    exists response, (evs ++ evs'). rewrite app_assoc. split; [done|].
    rewrite gets_app. lia.
  - intros Hne. rewrite pr_report_line_run. cbv zeta.
    destruct (get_payload_frame (PRReporter.pr_comments_url pr) (Some commit)
                (Some "commit_id") file_name position message (PRReporter.base pr) tr)
      as (payload & cs & evs & -> & _ & _ & Hcached).
    destruct (Hcached Hne) as [-> Hg]. rewrite set_comments_same.
    assert (PRReporter.set_base (PRReporter.base pr) pr = pr) as -> by (by destruct pr).
    destruct payload as [payload|].
    + eexists _, _. rewrite <- !app_assoc. split; [reflexivity|].
      rewrite !gets_app, (gets_cons (Post _ _ _)), gets_error_log, Hg. done.
    + by exists None, evs.
  - revert batcher tr. induction os as [|o os IH]; intros batcher tr Hne; [done|].
    cbn [run_ops].
    destruct (do_op_frame o batcher tr) as (cs & added & evs & -> & _ & _ & _ & Hcs & Hg).
    destruct Hcs as [-> | Hempty]; [|done].
    rewrite set_comments_same in *.
    match goal with |- context [run_ops os ?s ?t] =>
      destruct (IH s t) as [IH1 IH2]; [by destruct batcher as [[]]|]
    end.
    rewrite IH1, IH2, gets_app, (Hg Hne).
    split; [by destruct batcher as [[]] | lia].
Qed.

Lemma populated_cache_is_never_refreshed_witness :
  let batcher := PRReviewReporter.set_github cached_reporter review_reporter in
  let os := [OpReportLine "sha" "foo.py" 2 (MStr "New message");
             OpPostComment "Too many errors";
             OpSubmitReview] in
  _comments cached_reporter ≠ []
  ∧ (∃ response evs,
       CommitReporter.report_line "sha" "foo.py" 2 (MStr "New message") cached_reporter []
       = (response, cached_reporter, [] ++ evs)
       ∧ gets evs = 0%nat)
  ∧ PRReviewReporter.github (run_ops os batcher []).1 = cached_reporter
  ∧ gets (run_ops os batcher []).2 = 0%nat.
Proof.
  intros batcher os.
  assert (Hne : _comments cached_reporter ≠ []) by discriminate.
  destruct (populated_cache_is_never_refreshed "sha" "foo.py" 2 (MStr "New message")
              cached_reporter (PRReporter.set_base cached_reporter pr_reporter)
              batcher os []) as (Hcommit & _ & Hseq).
  split; [exact Hne|]. split; [exact (Hcommit Hne)|]. exact (Hseq Hne).
Defined.

(** X5: the pending review only grows, and nothing else of the reporter
    changes but the cache and the reviews url.  After any sequence of
    operations the pending comments start with the comments pending before,
    each [report_line] has added at most one, [submit_review] has drained
    nothing, and the domain, repository, transport, pull-request number and
    comments url are the ones the reporter was built with. *)
Theorem pending_review_only_grows (os : list Op) self tr :
  let self' := (run_ops os self tr).1 in
  PRReviewReporter.comments self `prefix_of` PRReviewReporter.comments self'
  ∧ (length (PRReviewReporter.comments self')
     ≤ length (PRReviewReporter.comments self) + length (List.filter is_report_line os))%nat
  ∧ (∃ cs, PRReviewReporter.github self' = set_comments cs (PRReviewReporter.github self))
  ∧ PRReporter.pr_number (PRReviewReporter.base self')
    = PRReporter.pr_number (PRReviewReporter.base self)
  ∧ PRReporter.pr_comments_url (PRReviewReporter.base self')
    = PRReporter.pr_comments_url (PRReviewReporter.base self).
Proof.
  revert self tr. induction os as [|o os IH]; intros self tr.
  - cbv zeta. cbn [run_ops fst].
    split_and!; [done | lia | | done | done].
    exists (_comments (PRReviewReporter.github self)). by rewrite set_comments_same.
  - cbn [run_ops].
    destruct (do_op_frame o self tr) as (cs & added & evs & -> & Hadd & _).
    match goal with |- context [run_ops os ?s ?t] =>
      specialize (IH s t); cbv zeta in IH; destruct IH as (Hpre & Hlen & [cs' Hg] & Hn & Hu)
    end.
    cbv zeta. split_and!.
    + etrans; [|exact Hpre]. by apply prefix_app_r.
    + etrans; [exact Hlen|]. cbn. rewrite length_app.
      destruct (is_report_line o); cbn in *; lia.
    + exists cs'. by rewrite Hg.
    + by rewrite Hn.
    + by rewrite Hu.
Qed.

(** X6: the transport calls of a sequence of operations on a
    [PRReviewReporter] are bounded by its operations: GETs come from
    [report_line] only, at most one each, and POSTs come from [submit_review]
    and [post_comment] only, at most one each. *)
Theorem review_sequence_transport_budget (os : list Op) self tr :
  ∃ evs,
    (run_ops os self tr).2 = tr ++ evs
    ∧ (gets evs ≤ length (List.filter is_report_line os))%nat
    ∧ (posts evs ≤ length (List.filter (λ o, negb (is_report_line o)) os))%nat.
Proof.
  revert self tr. induction os as [|o os IH]; intros self tr.
  - exists []. by rewrite app_nil_r.
  - cbn [run_ops].
    destruct (do_op_frame o self tr) as (cs & added & evs & -> & _ & Hg & Hp & _).
    match goal with |- context [run_ops os ?s ?t] =>
      destruct (IH s t) as (evs' & -> & Hg' & Hp')
    end.
    exists (evs ++ evs'). rewrite app_assoc. split; [done|].
    rewrite gets_app, posts_app. cbn. destruct (is_report_line o); cbn in *; lia.
Qed.

(** ** Submitting twice *)

Lemma posted_log lvl fmt arg tr : posted (Log lvl fmt arg :: tr) = posted tr.
Proof. reflexivity. Qed.

Lemma posted_post url payload result tr :
  posted (Post url payload result :: tr) = (url, payload) :: posted tr.
Proof. reflexivity. Qed.

Lemma submit_review_posted (self : PRReviewReporter.t) tr :
  PRReviewReporter.comments self ≠ [] →
  ∃ r evs,
    PRReviewReporter.submit_review self tr
    = (Some r,
       PRReviewReporter.set_pr_reviews_url (PRReviewReporter.reviews_url self) self,
       tr ++ evs)
    ∧ posted evs
      = [(PRReviewReporter.reviews_url self,
          ReviewBody
            {| review_body :=
                 "Imhotep detected "
                   +:+ str_of_nat (length (PRReviewReporter.comments self))
                   +:+ " potential problems with this PR.";
               review_event := "COMMENT";
               review_comments := PRReviewReporter.comments self |})].
Proof.
  intros Hne. rewrite submit_review_run. cbv zeta.
  destruct (PRReviewReporter.comments self) as [|c cs] eqn:E; [done|].
  eexists _, _. rewrite <- !app_assoc. split; [reflexivity|].
  cbn [app]. rewrite !posted_log, posted_post. by case_bool_decide.
Qed.

(** X7: [submit_review] does not drain the pending comments.  With comments
    pending, a first submission leaves them in place, and a second submission
    right after it posts the very same review to the same url again and
    leaves the reporter as the first one left it. *)
Theorem submit_review_resends_pending (self : PRReviewReporter.t) tr :
  PRReviewReporter.comments self ≠ [] →
  let self1 := PRReviewReporter.set_pr_reviews_url (PRReviewReporter.reviews_url self) self in
  let review :=
    (PRReviewReporter.reviews_url self,
     ReviewBody
       {| review_body :=
            "Imhotep detected "
              +:+ str_of_nat (length (PRReviewReporter.comments self))
              +:+ " potential problems with this PR.";
          review_event := "COMMENT";
          review_comments := PRReviewReporter.comments self |}) in
  ∃ r1 evs1 r2 evs2,
    PRReviewReporter.submit_review self tr = (Some r1, self1, tr ++ evs1)
    ∧ PRReviewReporter.submit_review self1 (tr ++ evs1)
      = (Some r2, self1, (tr ++ evs1) ++ evs2)
    ∧ PRReviewReporter.comments self1 = PRReviewReporter.comments self
    ∧ posted evs1 = [review]
    ∧ posted evs2 = [review].
Proof.
  intros Hne self1 review.
  destruct (submit_review_posted self tr Hne) as (r1 & evs1 & Hrun1 & Hp1).
  destruct (submit_review_posted self1 (tr ++ evs1) Hne) as (r2 & evs2 & Hrun2 & Hp2).
  exists r1, evs1, r2, evs2. by split_and!.
Qed.

Lemma submit_review_resends_pending_witness :
  let pending := [line_payload ("* lorem" +:+ newline) "script.py" 0] in
  let self := PRReviewReporter.set_comments pending review_reporter in
  PRReviewReporter.comments self ≠ []
  ∧ ∃ r1 self1 tr1 r2 self2 tr2,
      PRReviewReporter.submit_review self [] = (Some r1, self1, tr1)
      ∧ PRReviewReporter.submit_review self1 tr1 = (Some r2, self2, tr2)
      ∧ PRReviewReporter.comments self2 = pending
      ∧ posts tr2 = 2%nat.
Proof.
  intros pending self.
  assert (Hne : PRReviewReporter.comments self ≠ []) by discriminate.
  split; [exact Hne|].
  destruct (submit_review_resends_pending self [] Hne)
    as (r1 & evs1 & r2 & evs2 & Hrun1 & Hrun2 & _ & Hp1 & Hp2).
  eexists r1, _, _, r2, _, _. split; [exact Hrun1|]. split; [exact Hrun2|].
  split; [reflexivity|].
  rewrite !posts_app, <- !posted_length, Hp1, Hp2. reflexivity.
Defined.

(** ** What the deduplicator looks at *)

(** X8: comments at another path or position, or by another author, have
    no influence on [clean_already_reported]: dropping them from the list
    changes nothing, and of the comments that are left only the first is
    looked at. *)
Theorem clean_looks_at_first_own_comment self comments file_name position message :
  clean_already_reported self comments file_name position message
  = clean_already_reported self
      (List.filter (same_place self file_name position) comments)
      file_name position message
  ∧ clean_already_reported self comments file_name position message
    = match List.filter (same_place self file_name position) comments with
      | [] => message
      | comment :: _ =>
          MList (List.filter (λ m, negb (str_in m (Comment.body comment))) (iter message))
      end.
Proof.
  induction comments as [|c cs [IH1 IH2]]; [done|]. cbn.
  destruct (same_place self file_name position c) eqn:E; cbn; [by rewrite E|].
  by split.
Qed.

(** ** Rendering and reading back *)

Lemma substring_prepend p m s : substring m s → substring m (p +:+ s).
Proof.
  intros (a & b & ->). exists (p +:+ a), b. by rewrite append_assoc.
Qed.

(** Every rendered message occurs in the rendering. *)
Lemma elem_of_bullets m (l : list string) : m ∈ l → substring m (bullets l).
Proof.
  induction l as [|x l IH]; intros Hin; [by apply elem_of_nil in Hin|].
  rewrite bullets_cons. apply elem_of_cons in Hin as [-> | Hin].
  - exists "* ", (newline +:+ bullets l). by rewrite !append_assoc.
  - apply substring_prepend. by apply IH.
Qed.

(** X9: what the reporter rendered suppresses its repetition.  When the
    first cached comment at the file and position by the acting identity has
    for body the rendering, by [convert_message_to_string], of a list of
    messages, [get_payload] for any candidates taken from that list builds
    no payload, calls the transport not at all and leaves the reporter as it
    was. *)
Theorem rendered_messages_are_suppressed
    url commit commit_key file_name position (rendered : list string) message
    self tr pre comment post :
  _comments self = pre ++ comment :: post →
  Forall (λ c, ¬ matches self file_name position c) pre →
  matches self file_name position comment →
  Comment.body comment = convert_message_to_string (MList rendered) →
  as_list message ⊆ rendered →
  get_payload url commit commit_key file_name position message self tr
  = (None, self, tr ++ [Log Debug "Message already reported" LNothing]).
Proof.
  intros Hcache Hpre Hc Hbody Hsub. rewrite get_payload_run.
  rewrite get_comments_cached by (rewrite Hcache; by destruct pre).
  assert (surviving self (_comments self) file_name position (as_list message) = [])
    as ->; [|done].
  unfold surviving. rewrite Hcache, clean_first_match by done. cbn [iter].
  rewrite Hbody, convert_message_to_string_bullets.
  induction (as_list message) as [|m l IH]; [done|]. cbn.
  assert (str_in m (bullets rendered) = true) as ->.
  { apply str_in_spec, elem_of_bullets, Hsub, list_elem_of_here. }
  cbn. apply IH. intros x Hx. apply Hsub. by apply list_elem_of_further.
Qed.

Lemma rendered_messages_are_suppressed_witness :
  let comment :=
    Comment.mk "script.py" 0 (convert_message_to_string (MList ["lorem"; "ipsum"]))
      {| login := "magicmock" |} in
  let self := set_comments [different_comment; comment] fresh_reporter in
  matches self "script.py" 0 comment
  ∧ get_payload "example.com" (Some "sha") (Some "commit_id") "script.py" 0
      (MStr "ipsum") self []
    = (None, self, [Log Debug "Message already reported" LNothing]).
Proof.
  intros comment self.
  assert (Hm : matches self "script.py" 0 comment) by (repeat split; reflexivity).
  split; [exact Hm|].
  apply (rendered_messages_are_suppressed "example.com" (Some "sha") (Some "commit_id")
           "script.py" 0 ["lorem"; "ipsum"] (MStr "ipsum") self []
           [different_comment] comment []); [reflexivity | | exact Hm | reflexivity | ].
  - repeat constructor. intros (Hpath & _). discriminate Hpath.
  - intros m Hin. apply list_elem_of_singleton in Hin as ->.
    apply list_elem_of_further, list_elem_of_here.
Defined.

(** X10: [convert_message_to_string] renders nothing for no message, renders
    a concatenation of lists as the concatenation of their renderings, so
    findings merged on one line keep their order, and walks a single string
    character by character, one bullet per character. *)
Theorem convert_message_to_string_concat (l1 l2 : list string) (s : string) :
  convert_message_to_string (MList []) = ""
  ∧ convert_message_to_string (MList (l1 ++ l2))
    = convert_message_to_string (MList l1) +:+ convert_message_to_string (MList l2)
  ∧ convert_message_to_string (MStr s)
    = String.concat "" (map (λ ch, "* " +:+ ch +:+ newline) (chars s)).
Proof.
  split_and!; [done | | ].
  - rewrite !convert_message_to_string_bullets.
    induction l1 as [|m l1 IH]; [done|]. cbn [app].
    by rewrite !bullets_cons, IH, !append_assoc.
  - change (convert_message_to_string (MStr s))
      with (convert_message_to_string (MList (chars s))).
    apply convert_message_to_string_bullets.
Qed.

(** ** Edge inputs *)

Lemma surviving_nil self comments file_name position :
  surviving self comments file_name position [] = [].
Proof.
  pose proof (surviving_sublist self comments file_name position []) as H.
  by apply sublist_nil_r in H.
Qed.

(** X11: an empty list of messages reports nothing.  With [message = []]
    the [report_line] of every strategy returns null and posts nothing, and
    the pending review of a [PRReviewReporter] stays as it was. *)
Theorem empty_message_list_reports_nothing commit file_name position
    (committer : GitHubReporter) (pr : PRReporter.t) (batcher : PRReviewReporter.t) tr :
  (∃ self' evs,
     CommitReporter.report_line commit file_name position (MList []) committer tr
     = (None, self', tr ++ evs)
     ∧ posts evs = 0%nat)
  ∧ (∃ self' evs,
       PRReporter.report_line commit file_name position (MList []) pr tr
       = (None, self', tr ++ evs)
       ∧ posts evs = 0%nat)
  ∧ (∃ self' evs,
       PRReviewReporter.report_line commit file_name position (MList []) batcher tr
       = (None, self', tr ++ evs)
       ∧ posts evs = 0%nat
       ∧ PRReviewReporter.comments self' = PRReviewReporter.comments batcher).
Proof.
  split_and!.
  - rewrite commit_report_line_run. cbv zeta.
    destruct (get_comments_effect (CommitReporter.report_url committer commit) committer tr)
      as (cs & evs & -> & Hp & _).
    rewrite clean_list, surviving_nil, get_payload_run.
    destruct (get_comments_effect (CommitReporter.report_url committer commit)
                (set_comments cs committer) (tr ++ evs)) as (cs' & evs' & -> & Hp' & _).
    cbn [as_list]. rewrite surviving_nil. cbn [CommitReporter.deliver].
    eexists _, (evs ++ evs' ++ [_]). rewrite !app_assoc. split; [reflexivity|].
    rewrite !posts_app, Hp, Hp'. done.
  - rewrite pr_report_line_run. cbv zeta. rewrite get_payload_run.
    destruct (get_comments_effect (PRReporter.pr_comments_url pr) (PRReporter.base pr) tr)
      as (cs & evs & -> & Hp & _).
    cbn [as_list]. rewrite surviving_nil.
    eexists _, (evs ++ [_]). rewrite !app_assoc. split; [reflexivity|].
    rewrite !posts_app, Hp. done.
  - rewrite review_report_line_run, get_payload_run.
    destruct (get_comments_effect (PRReporter.pr_comments_url (PRReviewReporter.base batcher))
                (PRReviewReporter.github batcher) tr) as (cs & evs & -> & Hp & _).
    cbn [as_list]. rewrite surviving_nil.
    eexists _, (evs ++ [_]). rewrite !app_assoc. split; [reflexivity|].
    rewrite !posts_app, Hp. done.
Qed.

(** X12: a single string that no fetched comment matches reaches
    [CommitReporter]'s payload whole: [report_line] then does for the string
    what it does for the one-element list holding it. *)
Theorem commit_reporter_keeps_unmatched_string
    commit file_name position (s : string) self tr first self1 tr1 :
  get_comments (CommitReporter.report_url self commit) self tr = (first, self1, tr1) →
  Forall (λ c, ¬ matches self file_name position c) first →
  CommitReporter.report_line commit file_name position (MStr s) self tr
  = CommitReporter.report_line commit file_name position (MList [s]) self tr.
Proof.
  intros Hfetch Hnone. rewrite !commit_report_line_run. cbv zeta.
  rewrite Hfetch, !clean_no_match by done.
  by rewrite !get_payload_run.
Qed.

Lemma commit_reporter_keeps_unmatched_string_witness :
  Forall (λ c, ¬ matches cached_reporter "setup.py" 0 c) [get_that_out]
  ∧ CommitReporter.report_line "sha" "setup.py" 0 (MStr "test") cached_reporter []
    = CommitReporter.report_line "sha" "setup.py" 0 (MList ["test"]) cached_reporter [].
Proof.
  assert (Hnone : Forall (λ c, ¬ matches cached_reporter "setup.py" 0 c) [get_that_out]).
  { repeat constructor. intros (Hpath & _). discriminate Hpath. }
  split; [exact Hnone|].
  exact (commit_reporter_keeps_unmatched_string "sha" "setup.py" 0 "test"
           cached_reporter [] [get_that_out] cached_reporter [] eq_refl Hnone).
Defined.

(** ** Reporting the same finding twice *)

(** X13: what a reporter posts is not added to its cache.  With a populated
    cache in which some candidate survives, [PRReporter.report_line] posts,
    leaves the reporter unchanged, and the same call made again posts the
    same payload to the same url a second time. *)
Theorem pr_report_line_repeats_post commit file_name position message
    (self : PRReporter.t) tr :
  _comments (PRReporter.base self) ≠ [] →
  surviving (PRReporter.base self) (_comments (PRReporter.base self))
    file_name position (as_list message) ≠ [] →
  ∃ r1 evs1 r2 evs2 entry,
    PRReporter.report_line commit file_name position message self tr
    = (Some r1, self, tr ++ evs1)
    ∧ PRReporter.report_line commit file_name position message self (tr ++ evs1)
      = (Some r2, self, (tr ++ evs1) ++ evs2)
    ∧ posted evs1 = [entry]
    ∧ posted evs2 = [entry].
Proof.
  intros Hne Hsurv.
  assert (Hone : ∀ tr0, ∃ r evs,
    PRReporter.report_line commit file_name position message self tr0
    = (Some r, self, tr0 ++ evs)
    ∧ posted evs
      = [(PRReporter.pr_comments_url self,
          LineBody (<["commit_id" := VStr commit]>
                      (line_payload
                         (bullets (surviving (PRReporter.base self)
                                     (_comments (PRReporter.base self))
                                     file_name position (as_list message)))
                         file_name position)))]).
  { intros tr0. rewrite pr_report_line_run. cbv zeta. rewrite get_payload_run.
    rewrite get_comments_cached by done.
    destruct (surviving _ _ file_name position (as_list message)) as [|m l]; [done|].
    cbv beta iota zeta.
    assert (PRReporter.set_base (PRReporter.base self) self = self) as ->
      by (by destruct self).
    eexists _, _. rewrite <- !app_assoc. split; [reflexivity|].
    cbn [app]. by rewrite !posted_log, posted_post, posted_error_log. }
  destruct (Hone tr) as (r1 & evs1 & Hrun1 & Hp1).
  destruct (Hone (tr ++ evs1)) as (r2 & evs2 & Hrun2 & Hp2).
  by eexists r1, evs1, r2, evs2, _.
Qed.

Lemma pr_report_line_repeats_post_witness :
  let self := PRReporter.set_base cached_reporter pr_reporter in
  _comments (PRReporter.base self) ≠ []
  ∧ surviving (PRReporter.base self) (_comments (PRReporter.base self))
      "foo.py" 2 (as_list (MStr "New message")) ≠ []
  ∧ ∃ r1 tr1 r2 tr2,
      PRReporter.report_line "sha" "foo.py" 2 (MStr "New message") self []
      = (Some r1, self, tr1)
      ∧ PRReporter.report_line "sha" "foo.py" 2 (MStr "New message") self tr1
        = (Some r2, self, tr2)
      ∧ posts tr2 = 2%nat.
Proof.
  intros self.
  assert (Hne : _comments (PRReporter.base self) ≠ []) by discriminate.
  assert (Hsurv : surviving (PRReporter.base self) (_comments (PRReporter.base self))
                    "foo.py" 2 (as_list (MStr "New message")) ≠ []) by discriminate.
  split; [exact Hne|]. split; [exact Hsurv|].
  destruct (pr_report_line_repeats_post "sha" "foo.py" 2 (MStr "New message") self []
              Hne Hsurv) as (r1 & evs1 & r2 & evs2 & entry & Hrun1 & Hrun2 & Hp1 & Hp2).
  eexists r1, _, r2, _. split; [exact Hrun1|]. split; [exact Hrun2|].
  rewrite !posts_app, <- !posted_length, Hp1, Hp2. reflexivity.
Defined.

(** ** Failed posts, and where the cache comes from *)

(** X14: a failed POST is logged and its response returned.  Whenever a
    [report_line] of [CommitReporter] or [PRReporter], or [submit_review],
    returns a response, the trace ends with the POST that was answered by
    it, followed by one error log entry carrying the response body exactly
    when the status is 400 or more: the failing response is handed to the
    caller, it is not turned into null. *)
Theorem failed_post_is_logged_and_returned commit file_name position message
    (committer : GitHubReporter) (pr : PRReporter.t) (batcher : PRReviewReporter.t)
    tr (r : Response) :
  (∀ self' tr',
     CommitReporter.report_line commit file_name position message committer tr
     = (Some r, self', tr') →
     ∃ before url payload,
       tr' = before ++ Post url payload r
                    :: error_log "Error posting line to github. %s" r)
  ∧ (∀ self' tr',
       PRReporter.report_line commit file_name position message pr tr
       = (Some r, self', tr') →
       ∃ before url payload,
         tr' = before ++ Post url payload r
                      :: error_log "Error posting line to github. %s" r)
  ∧ (∀ self' tr',
       PRReviewReporter.submit_review batcher tr = (Some r, self', tr') →
       ∃ before url payload,
         tr' = before ++ Post url payload r
                      :: error_log "Error posting review to github. %s" r).
Proof.
  split_and!; intros self' tr'.
  - rewrite commit_report_line_run. cbv zeta.
    destruct (get_comments _ committer tr) as [[cs self1] tr1].
    destruct (get_payload _ _ _ _ _ _ self1 tr1) as [[[payload|] self2] tr2]; [|done].
    rewrite deliver_run. cbv zeta. intros [= <- <- <-]. by eexists _, _, _.
  - rewrite pr_report_line_run. cbv zeta.
    destruct (get_payload _ _ _ _ _ _ _ tr) as [[[payload|] g] tr1]; [|done].
    intros [= <- <- <-]. by eexists _, _, _.
  - rewrite submit_review_run. cbv zeta.
    destruct (PRReviewReporter.comments batcher); [done|].
    intros [= <- <- <-]. by eexists _, _, _.
Qed.

Lemma failed_post_is_logged_and_returned_witness :
  let refusing : Requester :=
    {| username := "magicmock";
       get := λ _ _, ok [get_that_out];
       post := λ _ _ _, {| status_code := 422; json := [] |} |} in
  let self := PRReporter.init refusing "github.com" "justinabrahms/imhotep" "10" in
  ∃ self' tr' before url payload,
    PRReporter.report_line "sha" "foo.py" 2 (MStr "New message") self []
    = (Some {| status_code := 422; json := [] |}, self', tr')
    ∧ tr' = before ++ [Post url payload {| status_code := 422; json := [] |};
                       Log Error "Error posting line to github. %s" (LJson [])].
Proof.
  intros refusing self.
  destruct (PRReporter.report_line "sha" "foo.py" 2 (MStr "New message") self [])
    as [[response self'] tr'] eqn:E.
  assert (Hr : response = Some {| status_code := 422; json := [] |})
    by (apply (f_equal (λ x, x.1.1)) in E; vm_compute in E; by subst response).
  subst response.
  destruct (failed_post_is_logged_and_returned "sha" "foo.py" 2 (MStr "New message")
              fresh_reporter self review_reporter [] {| status_code := 422; json := [] |})
    as (_ & Hpr & _).
  destruct (Hpr self' tr' E) as (before & url & payload & Htr).
  by exists self', tr', before, url, payload.
Defined.

(** X15: the cache only ever holds what it held or the body of a
    successful response.  [get_comments] returns exactly what it leaves in
    the cache, changes nothing else of the reporter, never posts, and what it
    returns is either the cache as it was or the body of a GET to the given
    url that was answered with a status below 400. *)
Theorem get_comments_returns_the_cache url self tr :
  ∃ cs evs,
    get_comments url self tr = (cs, set_comments cs self, tr ++ evs)
    ∧ posts evs = 0%nat
    ∧ (cs = _comments self
       ∨ ∃ result, Get url result ∈ evs ∧ status_code result < 400 ∧ cs = json result).
Proof.
  destruct (_comments self) as [|c l] eqn:E.
  - rewrite get_comments_fetch by done. cbv zeta. case_bool_decide.
    + eexists [], _. rewrite <- app_assoc, <- E, set_comments_same.
      split; [reflexivity|]. split; [done|]. by left.
    + eexists _, _. rewrite <- app_assoc. split; [reflexivity|]. split; [done|].
      right. eexists. split; [|split; [|reflexivity]]; [|lia].
      apply list_elem_of_further, list_elem_of_here.
  - exists (c :: l), []. rewrite get_comments_cached, app_nil_r by (by rewrite E).
    rewrite E, <- E, set_comments_same. split; [done|]. split; [done|]. by left.
Qed.
